(** * vlx2mqtt: the bridge between a KLF200 hub (pyvlx) and an MQTT broker

    A shallow embedding of [src/vlx2mqtt.py].  The module-level globals
    [RUNNING], [MQTT_CONN] and [nodes] become the fields of a state record
    that every callback and the main coroutine pass along.  What the program
    asks of its two collaborators (the broker client [MQTTC] and the hub
    session [pyvlx]) and every sleep are appended, in program order, to the
    [trace] field.  A Python exception is a [Raised] result carrying the
    state at the raise.

    Modelling choices, stated once:
    - callbacks are delivered while the main coroutine sleeps (the 2 s pause
      of the start-up and the 1 s pause of every tick) and, in
      [issue_loop_during], [tick_during] and [main_loop_during], also
      while the loop of a tick is under way: before it looks at an entry
      of its snapshot and while it awaits the hub write for it.
      [issue_loop], [tick] and [main_loop] are the runs in which nothing
      is delivered while that loop is under way;
    - the calls on the broker client return normally; the hub write
      [pyvlx.nodes[name].set_position(Position(position_percent=value))] and
      [pyvlx.disconnect()] are fallible and abstract (section variables);
    - [int(msg.payload)] is CPython's base-10 parser on a bytes object,
      without the limit on the number of digits of recent versions;
    - log lines are not modelled. *)

From Stdlib Require Import ZArith List String Ascii Bool Lia.
Import ListNotations.

Local Open Scope string_scope.
Local Open Scope Z_scope.

Set Default Proof Using "Type".

(* ------------------------------------------------------------------ *)
(** ** Python values used by the program *)

Module Py.

(** [Py_ISSPACE]: the six ASCII white-space bytes. *)
Definition is_space (c : ascii) : bool :=
  let n := nat_of_ascii c in
  (Nat.leb 9 n && Nat.leb n 13) || Nat.eqb n 32.

Definition digit_of (c : ascii) : option Z :=
  let n := Z.of_nat (nat_of_ascii c) in
  if (48 <=? n) && (n <=? 57) then Some (n - 48) else None.

Fixpoint lstrip (s : string) : string :=
  match s with
  | String c t => if is_space c then lstrip t else s
  | EmptyString => EmptyString
  end.

Fixpoint rstrip (s : string) : string :=
  match s with
  | EmptyString => EmptyString
  | String c t =>
      match rstrip t with
      | EmptyString => if is_space c then EmptyString else String c EmptyString
      | t' => String c t'
      end
  end.

(** What the digit scanner saw last: an underscore is legal only between
    two digits. *)
Inductive seen := SeenNothing | SeenDigit | SeenUnderscore.

Fixpoint parse_digits (acc : Z) (p : seen) (s : string) : option Z :=
  match s with
  | EmptyString => match p with SeenDigit => Some acc | _ => None end
  | String c t =>
      match digit_of c with
      | Some d => parse_digits (10 * acc + d) SeenDigit t
      | None =>
          if Ascii.eqb c "_"
          then match p with
               | SeenDigit => parse_digits acc SeenUnderscore t
               | _ => None
               end
          else None
      end
  end.

(** [int(b)] for a bytes object [b]; [None] stands for [ValueError]. *)
Definition int (b : string) : option Z :=
  match rstrip (lstrip b) with
  | String "-" t => option_map Z.opp (parse_digits 0 SeenNothing t)
  | String "+" t => parse_digits 0 SeenNothing t
  | s => parse_digits 0 SeenNothing s
  end.

(** [needle in haystack] on [str]: substring test. *)
Fixpoint contains (needle haystack : string) : bool :=
  String.prefix needle haystack ||
  match haystack with
  | EmptyString => false
  | String _ t => contains needle t
  end.

(** A [dict] from [str] to [int], in insertion order. *)
Definition dict := list (string * Z).

(** [d[k] = v]: an existing key keeps its place, a new key goes last. *)
Fixpoint setitem (k : string) (v : Z) (d : dict) : dict :=
  match d with
  | [] => [(k, v)]
  | (k', v') :: rest =>
      if String.eqb k k' then (k, v) :: rest
      else (k', v') :: setitem k v rest
  end.

Fixpoint get (k : string) (d : dict) : option Z :=
  match d with
  | [] => None
  | (k', v') :: rest => if String.eqb k k' then Some v' else get k rest
  end.

(** [list(d.items())] *)
Definition items (d : dict) : list (string * Z) := d.

Definition keys (d : dict) : list string := map fst d.

(** The keys of a Python dict are pairwise distinct. *)
Definition wf (d : dict) : Prop := NoDup (keys d).

End Py.

(* ------------------------------------------------------------------ *)
(** ** The state of the process and what it asks of its collaborators *)

(** A node of the hub's roster: [node.name], whether it is an instance of
    [OpeningDevice], and [node.position.position_percent]. *)
Record Node := mkNode {
  name : string;
  is_opening : bool;
  position_percent : Z
}.

(** A published payload is a status string or a position. *)
Inductive Payload :=
| PStr (s : string)
| PInt (n : Z).

(** The requests the program makes, in the order it makes them. *)
Inductive Effect :=
| Connect                                   (* MQTTC.connect(host, port, 60) *)
| Publish (topic : string) (payload : Payload) (retain : bool)
| Subscribe (topic : string)
| LoopStart                                 (* MQTTC.loop_start() *)
| LoopStop                                  (* MQTTC.loop_stop() *)
| Disconnect                                (* MQTTC.disconnect() *)
| Sleep (seconds : Z)                       (* time.sleep / asyncio.sleep *)
| LoadNodes                                 (* pyvlx.load_nodes() *)
| RegisterCb (device : string)              (* register_device_updated_cb *)
| SetPosition (device : string) (value : Z) (* the hub write *)
| HubDisconnect.                            (* pyvlx.disconnect() *)

Inductive exn := ValueError | HubError.

Inductive result (A : Type) :=
| Ok (a : A)
| Raised (e : exn) (a : A).
Arguments Ok {A} a.
Arguments Raised {A} e a.

(** What the broker client, the hub and the operating system deliver. *)
Inductive Event :=
| OnConnect (return_code : Z)
| OnDisconnect (return_code : Z)
| OnMessage (topic payload : string)
| Signal (signum : Z)
| DeviceUpdated (node : Node).

Record State (Hub : Type) := mkState {
  RUNNING : bool;
  MQTT_CONN : bool;
  nodes : Py.dict;
  pyvlx_nodes : list Node;
  pyvlx : Hub;
  trace : list Effect
}.
Arguments mkState {Hub}.
Arguments RUNNING {Hub}.
Arguments MQTT_CONN {Hub}.
Arguments nodes {Hub}.
Arguments pyvlx_nodes {Hub}.
Arguments pyvlx {Hub}.
Arguments trace {Hub}.

(** How a run of [main] ends: it returned, an exception left it, or the
    scheduled input ran out while it was still looping. *)
Inductive outcome (Hub : Type) :=
| Exited (st : State Hub)
| Crashed (e : exn) (st : State Hub)
| Pending (st : State Hub).
Arguments Exited {Hub}.
Arguments Crashed {Hub}.
Arguments Pending {Hub}.

Definition SIGTERM : Z := 15.

(* ------------------------------------------------------------------ *)
(** ** Reading a run *)

Definition state_of {A : Type} (r : result A) : A :=
  match r with
  | Ok a => a
  | Raised _ a => a
  end.

(** The effects a step added: the trace after it, without the trace
    before it. *)
Definition since {Hub : Type} (st st' : State Hub) : list Effect :=
  skipn (List.length (trace st)) (trace st').

(** The values written to [device], oldest first. *)
Definition commands_for (device : string) (tr : list Effect) : list Z :=
  flat_map (fun e =>
              match e with
              | SetPosition d v => if String.eqb device d then [v] else []
              | _ => []
              end) tr.

(** The publish requests of a trace, oldest first. *)
Definition publishes (tr : list Effect) : list (string * Payload * bool) :=
  flat_map (fun e =>
              match e with
              | Publish t p r => [(t, p, r)]
              | _ => []
              end) tr.

(** The sleeps of a trace, in seconds, oldest first. *)
Definition slept (tr : list Effect) : list Z :=
  flat_map (fun e => match e with Sleep s => [s] | _ => [] end) tr.

(** An entry of the table that a tick issues. *)
Definition due (kv : string * Z) : bool := snd kv >=? 0.

Definition command (kv : string * Z) : Effect :=
  SetPosition (fst kv) (snd kv).

(** An entry after the tick has looked at it. *)
Definition cleared (kv : string * Z) : string * Z :=
  (fst kv, if due kv then -1 else snd kv).

(** The table once the tick has taken the entries [done] out of it. *)
Definition taken (done : list (string * Z)) (d : Py.dict) : Py.dict :=
  fold_left (fun d kv => Py.setitem (fst kv) (-1) d) done d.

(** Whether [mqtt_on_message] takes [topic] as a command for [node]. *)
Definition addressed (topic : string) (node : Node) : bool :=
  Py.contains (name node ++ "/set") topic.

(** Whether a message on [topic] makes [mqtt_on_message] assign to the
    key [k], given the roster [ns]. *)
Definition staged_by (topic : string) (ns : list Node) (k : string) : bool :=
  existsb (fun n => String.eqb k (name n) && addressed topic n) ns.

(** The state a run of [main] ends in. *)
Definition final {Hub : Type} (o : outcome Hub) : State Hub :=
  match o with
  | Exited st => st
  | Crashed _ st => st
  | Pending st => st
  end.

(** The callbacks that call [cleanup]: a signal, and a refused connect
    with a return code other than 3. *)
Definition stops (ev : Event) : bool :=
  match ev with
  | Signal _ => true
  | OnConnect rc => negb (rc =? 0) && negb (rc =? 3)
  | _ => false
  end.

(** An inbound broker message. *)
Definition is_message (ev : Event) : bool :=
  match ev with
  | OnMessage _ _ => true
  | _ => false
  end.

(** What is delivered while the loop of a tick handles one entry of its
    snapshot: the callbacks that run before the loop looks at the entry,
    and those that run while it awaits the hub write for it. *)
Definition arrivals : Type := list (list Event * list Event).

(** No command arrives while the loop is under way. *)
Definition no_commands (during : arrivals) : bool :=
  forallb (fun p => forallb (fun ev => negb (is_message ev)) (fst p) &&
                    forallb (fun ev => negb (is_message ev)) (snd p))
          during.

(** The topics subscribed to during a trace, oldest first. *)
Definition subscriptions (tr : list Effect) : list string :=
  flat_map (fun e => match e with Subscribe t => [t] | _ => [] end) tr.

(** The devices [vlx_cb] was registered for during a trace. *)
Definition registrations (tr : list Effect) : list string :=
  flat_map (fun e => match e with RegisterCb d => [d] | _ => [] end) tr.

(** The effects of a trace that reach the hub. *)
Definition hub_effects (tr : list Effect) : list Effect :=
  filter (fun e =>
            match e with
            | SetPosition _ _ | HubDisconnect | LoadNodes | RegisterCb _ => true
            | _ => false
            end) tr.

(* ------------------------------------------------------------------ *)
(** ** Concrete collaborators for the examples *)

(** A hub that acknowledges every write and counts them. *)
Definition steady_hub (_ : string) (_ : Z) (n : nat) : option nat :=
  Some (S n).

(** A hub that refuses a position above 100, as the range check of
    [Position(position_percent=...)] does. *)
Definition strict_hub (_ : string) (v : Z) (n : nat) : option nat :=
  if v <=? 100 then Some (S n) else None.

Definition hub_disconnect (n : nat) : option nat := Some n.

Definition shutter1 : Node := mkNode "shutter1" true 0.
Definition west : Node := mkNode "west" true 0.
Definition kitchen_shutter1 : Node := mkNode "kitchen_shutter1" true 0.

(** The state of a bridge on root topic [home], once the roster is
    loaded. *)
Definition watching (roster : list Node) : State nat :=
  mkState true false [] roster 0%nat [].

(* ------------------------------------------------------------------ *)
(** ** The program *)

Section Bridge.

Variables ROOTTOPIC STATUSTOPIC : string.
Context {Hub : Type}.
(** [await pyvlx.nodes[name].set_position(Position(position_percent=value))]
    as one fallible step of the hub; [None] is any exception it raises. *)
Variable set_position : string -> Z -> Hub -> option Hub.
(** [await pyvlx.disconnect()] *)
Variable disconnect : Hub -> option Hub.

Abbreviation St := (State Hub).

Definition emit (e : Effect) (st : St) : St :=
  mkState (RUNNING st) (MQTT_CONN st) (nodes st) (pyvlx_nodes st) (pyvlx st)
          (trace st ++ [e]).

Definition set_RUNNING (b : bool) (st : St) : St :=
  mkState b (MQTT_CONN st) (nodes st) (pyvlx_nodes st) (pyvlx st) (trace st).

Definition set_MQTT_CONN (b : bool) (st : St) : St :=
  mkState (RUNNING st) b (nodes st) (pyvlx_nodes st) (pyvlx st) (trace st).

Definition set_nodes (d : Py.dict) (st : St) : St :=
  mkState (RUNNING st) (MQTT_CONN st) d (pyvlx_nodes st) (pyvlx st) (trace st).

Definition set_pyvlx_nodes (ns : list Node) (st : St) : St :=
  mkState (RUNNING st) (MQTT_CONN st) (nodes st) ns (pyvlx st) (trace st).

Definition set_pyvlx (h : Hub) (st : St) : St :=
  mkState (RUNNING st) (MQTT_CONN st) (nodes st) (pyvlx_nodes st) h (trace st).

(** The globals as the module sets them, before [main] runs. *)
Definition initial (h : Hub) : St := mkState true false [] [] h [].

Definition set_topic (device : string) : string :=
  ROOTTOPIC ++ "/" ++ device ++ "/set".

Definition state_topic (device : string) : string :=
  ROOTTOPIC ++ "/" ++ device.

(** [cleanup(signum, frame)] *)
Definition cleanup (signum : Z) (st : St) : St := set_RUNNING false st.

(** The loop of [mqtt_on_connect] that registers the devices. *)
Fixpoint subscribe_devices (ns : list Node) (st : St) : St :=
  match ns with
  | [] => st
  | node :: rest =>
      if is_opening node
      then subscribe_devices rest (emit (Subscribe (set_topic (name node))) st)
      else subscribe_devices rest st
  end.

(** [mqtt_on_connect(client, userdata, flags, return_code)] *)
Definition mqtt_on_connect (return_code : Z) (st : St) : St :=
  if return_code =? 0 then
    let st1 := emit (Publish STATUSTOPIC (PStr "CONNECTED") true) st in
    set_MQTT_CONN true (subscribe_devices (pyvlx_nodes st1) st1)
  else if return_code =? 1 then cleanup SIGTERM st
  else if return_code =? 2 then cleanup SIGTERM st
  else if return_code =? 3 then emit (Sleep 10) st
  else if return_code =? 4 then cleanup SIGTERM st
  else if return_code =? 5 then cleanup SIGTERM st
  else cleanup SIGTERM st.

(** [mqtt_on_disconnect(mosq, obj, return_code)] *)
Definition mqtt_on_disconnect (return_code : Z) (st : St) : St :=
  let st1 := set_MQTT_CONN false st in
  if return_code =? 0 then st1 else emit (Sleep 5) st1.

(** [nodes[device] = value] *)
Definition stage (device : string) (value : Z) (st : St) : St :=
  set_nodes (Py.setitem device value (nodes st)) st.

(** The loop of [mqtt_on_message] over [pyvlx.nodes].  The first
    [int(msg.payload)] of an iteration is an argument of the log call, so
    a payload that does not parse raises before the assignment. *)
Fixpoint stage_loop (ns : list Node) (topic payload : string) (st : St)
  : result St :=
  match ns with
  | [] => Ok st
  | node :: rest =>
      if negb (Py.contains (name node ++ "/set") topic)
      then stage_loop rest topic payload st
      else
        match Py.int payload with
        | None => Raised ValueError st
        | Some v =>
            stage_loop rest topic payload (stage (name node) v st)
        end
  end.

(** [mqtt_on_message(client, userdata, msg)] *)
Definition mqtt_on_message (topic payload : string) (st : St) : result St :=
  stage_loop (pyvlx_nodes st) topic payload st.

(** [vlx_cb(node)] *)
Definition vlx_cb (node : Node) (st : St) : result St :=
  if negb (MQTT_CONN st) then Ok st
  else Ok (emit (Publish (state_topic (name node))
                         (PInt (position_percent node)) false) st).

Definition handle (ev : Event) (st : St) : result St :=
  match ev with
  | OnConnect rc => Ok (mqtt_on_connect rc st)
  | OnDisconnect rc => Ok (mqtt_on_disconnect rc st)
  | OnMessage topic payload => mqtt_on_message topic payload st
  | Signal signum => Ok (cleanup signum st)
  | DeviceUpdated node => vlx_cb node st
  end.

(** An exception that leaves a callback goes to whoever called the
    callback, not to [main]: the globals stay as they were at the raise. *)
Definition deliver (st : St) (ev : Event) : St :=
  match handle ev st with
  | Ok st' => st'
  | Raised _ st' => st'
  end.

Definition deliver_all (evs : list Event) (st : St) : St :=
  fold_left deliver evs st.

(** The [for name, value in list(nodes.items())] loop of a tick, over the
    snapshot taken when the loop starts, in a run where no callback runs
    while the loop is under way ([issue_loop_during] below has them). *)
Fixpoint issue_loop (snapshot : list (string * Z)) (st : St) : result St :=
  match snapshot with
  | [] => Ok st
  | (device, value) :: rest =>
      if value >=? 0 then
        let st1 := stage device (-1) st in
        let st2 := emit (SetPosition device value) st1 in
        match set_position device value (pyvlx st2) with
        | None => Raised HubError st2
        | Some h => issue_loop rest (set_pyvlx h st2)
        end
      else issue_loop rest st
  end.

(** The loop started on the table as it is now. *)
Definition issue_pending (st : St) : result St :=
  issue_loop (Py.items (nodes st)) st.

(** One pass through the body of [while RUNNING]: sleep a second, during
    which [evs] are delivered, then look at the received commands, with
    nothing delivered meanwhile ([tick_during] below is the general
    tick). *)
Definition tick (evs : list Event) (st : St) : result St :=
  issue_pending (deliver_all evs (emit (Sleep 1) st)).

(** Everything of [main] after the [while RUNNING] loop. *)
Definition shutdown (st : St) : outcome Hub :=
  let st1 := emit (Publish STATUSTOPIC (PStr "DISCONNECTING KLF") true) st in
  let st2 := emit HubDisconnect st1 in
  match disconnect (pyvlx st2) with
  | None => Crashed HubError st2
  | Some h =>
      let st3 := set_pyvlx h st2 in
      let st4 := emit (Publish STATUSTOPIC (PStr "DISCONNECTED KLF") true) st3 in
      let st5 := emit (Publish STATUSTOPIC (PStr "DISCONNECTED") true) st4 in
      Exited (emit LoopStop (emit Disconnect st5))
  end.

(** [while RUNNING: ...] followed by the shutdown; [sched] gives, tick by
    tick, the callbacks delivered during the sleep of that tick. *)
Fixpoint main_loop (sched : list (list Event)) (st : St) : outcome Hub :=
  if RUNNING st then
    match sched with
    | [] => Pending st
    | evs :: rest =>
        match tick evs st with
        | Raised e st' => Crashed e st'
        | Ok st' => main_loop rest st'
        end
    end
  else shutdown st.

(** The connect loop at the head of [main]; [results] are the values the
    successive calls of [MQTTC.connect] return.  The flag tells whether a
    call returned 0 before the list ran out. *)
Fixpoint connect_retry (results : list Z) (st : St) : bool * St :=
  match results with
  | [] => (false, st)
  | r :: rest =>
      let st1 := emit Connect st in
      if negb (r =? 0) then connect_retry rest (emit (Sleep 10) st1)
      else (true, st1)
  end.

(** The loop of [main] that registers [vlx_cb]. *)
Fixpoint register_callbacks (ns : list Node) (st : St) : St :=
  match ns with
  | [] => st
  | node :: rest =>
      if is_opening node
      then register_callbacks rest (emit (RegisterCb (name node)) st)
      else register_callbacks rest st
  end.

(** [main(loop)].  [roster] is what [load_nodes] finds on the hub and
    [startup] the callbacks delivered during the 2 s pause. *)
Definition main (results : list Z) (roster : list Node)
    (startup : list Event) (sched : list (list Event)) (st : St)
  : outcome Hub :=
  match connect_retry results st with
  | (false, st1) => Pending st1
  | (true, st1) =>
      let st2 := emit (Publish STATUSTOPIC (PStr "STARTED") true) st1 in
      let st3 := emit LoadNodes (set_pyvlx_nodes roster st2) in
      let st4 := emit LoopStart st3 in
      let st5 := deliver_all startup (emit (Sleep 2) st4) in
      let st6 := emit (Publish STATUSTOPIC (PStr "KLF200_available") true) st5 in
      let st7 := register_callbacks (pyvlx_nodes st6) st6 in
      main_loop sched st7
  end.

(** The loop of a tick with the callbacks that run while it is under
    way.  The broker client calls [mqtt_on_message] from its own thread
    and the hub session calls [vlx_cb] while [set_position] is awaited;
    [during] gives them entry by entry of the snapshot (none once it is
    used up).  The value written and the test are those of the snapshot;
    the reset is an assignment to the table as it is then. *)
Fixpoint issue_loop_during (snapshot : list (string * Z)) (during : arrivals)
    (st : St) : result St :=
  match snapshot with
  | [] => Ok st
  | (device, value) :: rest =>
      let st0 := deliver_all (fst (hd ([], []) during)) st in
      if value >=? 0 then
        let st1 := stage device (-1) st0 in
        let st2 := emit (SetPosition device value) st1 in
        let st3 := deliver_all (snd (hd ([], []) during)) st2 in
        match set_position device value (pyvlx st3) with
        | None => Raised HubError st3
        | Some h => issue_loop_during rest (tl during) (set_pyvlx h st3)
        end
      else issue_loop_during rest (tl during) st0
  end.

(** One pass through the body of [while RUNNING]: [evs] are delivered
    during the sleep, [during] while the loop over the snapshot runs. *)
Definition tick_during (evs : list Event) (during : arrivals) (st : St)
  : result St :=
  let s := deliver_all evs (emit (Sleep 1) st) in
  issue_loop_during (Py.items (nodes s)) during s.

Fixpoint main_loop_during (sched : list (list Event * arrivals)) (st : St)
  : outcome Hub :=
  if RUNNING st then
    match sched with
    | [] => Pending st
    | (evs, during) :: rest =>
        match tick_during evs during st with
        | Raised e st' => Crashed e st'
        | Ok st' => main_loop_during rest st'
        end
    end
  else shutdown st.

(* ------------------------------------------------------------------ *)
(** ** The command table *)

Lemma setitem_fresh k v (d : Py.dict) :
  ~ In k (Py.keys d) -> Py.setitem k v d = (d ++ [(k, v)])%list.
Proof.
  induction d as [|[k' v'] d IH]; simpl; intros Hk; [reflexivity|].
  destruct (String.eqb_spec k k') as [->|Hne].
  - exfalso; apply Hk; now left.
  - rewrite IH; [reflexivity|]. intros Hin; apply Hk; now right.
Qed.

Lemma keys_setitem_known k v (d : Py.dict) :
  In k (Py.keys d) -> Py.keys (Py.setitem k v d) = Py.keys d.
Proof.
  induction d as [|[k' v'] d IH]; simpl; intros Hk; [contradiction|].
  destruct (String.eqb_spec k k') as [->|Hne]; simpl; [reflexivity|].
  f_equal. apply IH. destruct Hk as [Heq|Hin]; [congruence|exact Hin].
Qed.

Lemma wf_setitem k v (d : Py.dict) : Py.wf d -> Py.wf (Py.setitem k v d).
Proof.
  unfold Py.wf. intros Hd.
  destruct (in_dec string_dec k (Py.keys d)) as [Hin|Hout].
  - now rewrite keys_setitem_known.
  - rewrite setitem_fresh by exact Hout. unfold Py.keys.
    rewrite map_app. simpl.
    apply NoDup_app;
      [exact Hd | apply NoDup_cons; [intros [] | apply NoDup_nil] |].
    intros x Hx [<-|[]]. contradiction.
Qed.

Lemma get_setitem_same k v (d : Py.dict) : Py.get k (Py.setitem k v d) = Some v.
Proof.
  induction d as [|[k' v'] d IH]; simpl.
  - now rewrite String.eqb_refl.
  - destruct (String.eqb_spec k k') as [->|Hne]; simpl.
    + now rewrite String.eqb_refl.
    + destruct (String.eqb_spec k k'); [contradiction|exact IH].
Qed.

Lemma get_setitem_other k k' v (d : Py.dict) :
  k <> k' -> Py.get k' (Py.setitem k v d) = Py.get k' d.
Proof.
  intros Hne. induction d as [|[k0 v0] d IH]; simpl.
  - destruct (String.eqb_spec k' k); [congruence|reflexivity].
  - destruct (String.eqb_spec k k0) as [->|Hk]; simpl.
    + destruct (String.eqb_spec k' k0); [congruence|reflexivity].
    + destruct (String.eqb_spec k' k0); [reflexivity|exact IH].
Qed.

Lemma setitem_in_place k v v0 (pre rest : Py.dict) :
  ~ In k (Py.keys pre) ->
  Py.setitem k v (pre ++ (k, v0) :: rest)%list = (pre ++ (k, v) :: rest)%list.
Proof.
  induction pre as [|[k' v'] pre IH]; simpl; intros Hk.
  - now rewrite String.eqb_refl.
  - destruct (String.eqb_spec k k') as [->|Hne].
    + exfalso; apply Hk; now left.
    + rewrite IH; [reflexivity|]. intros Hin; apply Hk; now right.
Qed.

Lemma get_in_keys k (d : Py.dict) :
  Py.get k d = None <-> ~ In k (Py.keys d).
Proof.
  induction d as [|[k' v'] d IH]; simpl;
    [split; [intros _ []|reflexivity]|].
  destruct (String.eqb_spec k k') as [->|Hne].
  - split; [discriminate|]. intros H; exfalso; apply H; now left.
  - rewrite IH. split; intros H.
    + intros [Heq|Hin]; [congruence|exact (H Hin)].
    + intros Hin. apply H. now right.
Qed.

(* ------------------------------------------------------------------ *)
(** ** Reading traces *)

Lemma since_app (st st' : St) out :
  trace st' = (trace st ++ out)%list -> since st st' = out.
Proof.
  unfold since. intros ->.
  rewrite skipn_app, skipn_all, Nat.sub_diag. reflexivity.
Qed.

Lemma commands_for_app d (a b : list Effect) :
  commands_for d (a ++ b) = (commands_for d a ++ commands_for d b)%list.
Proof. unfold commands_for. apply flat_map_app. Qed.

Lemma publishes_app (a b : list Effect) :
  publishes (a ++ b) = (publishes a ++ publishes b)%list.
Proof. unfold publishes. apply flat_map_app. Qed.

Lemma slept_app (a b : list Effect) :
  slept (a ++ b) = (slept a ++ slept b)%list.
Proof. unfold slept. apply flat_map_app. Qed.

(** A table holds at most one command for a device. *)
Lemma commands_for_due d (l : Py.dict) :
  Py.wf l ->
  commands_for d (map command (filter due l)) =
  match Py.get d l with
  | Some v => if v >=? 0 then [v] else []
  | None => []
  end.
Proof.
  unfold Py.wf. induction l as [|[k v] l IH]; simpl; intros Hnd; [reflexivity|].
  inversion Hnd as [|? ? Hk Hl]; subst.
  specialize (IH Hl).
  destruct (String.eqb_spec d k) as [->|Hne].
  - assert (Hnone : Py.get k l = None) by now apply get_in_keys.
    rewrite Hnone in IH.
    change (due (k, v)) with (v >=? 0). destruct (v >=? 0); simpl.
    + rewrite String.eqb_refl. rewrite IH. reflexivity.
    + exact IH.
  - change (due (k, v)) with (v >=? 0). destruct (v >=? 0); simpl; [|exact IH].
    destruct (String.eqb_spec d k); [contradiction|]. exact IH.
Qed.

(** Taking every due entry out of a table leaves each due entry at -1
    and the other entries as they were. *)
Lemma taken_suffix (pre suf : Py.dict) :
  Py.wf (pre ++ suf)%list ->
  taken (filter due suf) (pre ++ suf)%list = (pre ++ map cleared suf)%list.
Proof.
  unfold Py.wf, Py.keys. revert pre.
  induction suf as [|[k v] suf IH]; intros pre Hnd; simpl; [reflexivity|].
  assert (Hfresh : ~ In k (map fst pre)).
  { rewrite map_app in Hnd. simpl in Hnd.
    apply NoDup_remove_2 in Hnd. intros Hin; apply Hnd.
    apply in_or_app; now left. }
  assert (Hshift : forall x : string * Z,
             fst x = k ->
             (pre ++ x :: suf)%list = ((pre ++ [x]) ++ suf)%list).
  { intros x _. now rewrite <- app_assoc. }
  change (cleared (k, v)) with (k, if v >=? 0 then -1 else v).
  change (due (k, v)) with (v >=? 0).
  destruct (v >=? 0); simpl.
  - rewrite setitem_in_place by exact Hfresh.
    rewrite (Hshift (k, -1)) by reflexivity. rewrite IH.
    + now rewrite <- app_assoc.
    + rewrite <- app_assoc. simpl.
      rewrite !map_app in *. simpl in *. exact Hnd.
  - rewrite (Hshift (k, v)) by reflexivity. rewrite IH.
    + now rewrite <- app_assoc.
    + rewrite <- app_assoc. simpl. exact Hnd.
Qed.

Lemma taken_all (d : Py.dict) :
  Py.wf d -> taken (filter due d) d = map cleared d.
Proof. intros Hd. apply (taken_suffix [] d). exact Hd. Qed.

Lemma get_cleared k (d : Py.dict) :
  Py.get k (map cleared d) =
  option_map (fun v => if v >=? 0 then -1 else v) (Py.get k d).
Proof.
  induction d as [|[k' v'] d IH]; simpl; [reflexivity|].
  destruct (String.eqb k k'); [reflexivity|exact IH].
Qed.

Lemma cleared_not_due (d : Py.dict) : filter due (map cleared d) = [].
Proof.
  induction d as [|[k v] d IH]; simpl; [reflexivity|].
  change (cleared (k, v)) with (k, if v >=? 0 then -1 else v).
  destruct (v >=? 0) eqn:Hv.
  - change (due (k, -1)) with (-1 >=? 0). simpl. exact IH.
  - change (due (k, v)) with (v >=? 0). rewrite Hv. exact IH.
Qed.

(* ------------------------------------------------------------------ *)
(** ** The loop that issues the commands *)

Lemma issue_loop_idle snap (st : St) :
  filter due snap = [] -> issue_loop snap st = Ok st.
Proof.
  induction snap as [|[k v] snap IH]; simpl; intros Hnone; [reflexivity|].
  change (due (k, v)) with (v >=? 0) in Hnone.
  destruct (v >=? 0); [discriminate|]. apply IH, Hnone.
Qed.

Lemma issue_loop_ok snap : forall st st' : St,
  issue_loop snap st = Ok st' ->
  trace st' = (trace st ++ map command (filter due snap))%list /\
  nodes st' = taken (filter due snap) (nodes st) /\
  RUNNING st' = RUNNING st /\ MQTT_CONN st' = MQTT_CONN st /\
  pyvlx_nodes st' = pyvlx_nodes st.
Proof.
  induction snap as [|[k v] snap IH]; simpl; intros st st' Hrun.
  - injection Hrun as <-. rewrite app_nil_r. repeat split.
  - change (due (k, v)) with (v >=? 0).
    destruct (v >=? 0); [|now apply IH].
    destruct (set_position k v _) as [h|]; [|discriminate].
    apply IH in Hrun. simpl in Hrun.
    destruct Hrun as (Htr & Hn & Hr & Hc & Hp).
    repeat split; try assumption.
    rewrite Htr, <- app_assoc. reflexivity.
Qed.

Lemma issue_loop_raised snap : forall (st : St) e (st' : St),
  issue_loop snap st = Raised e st' ->
  e = HubError /\
  exists done kv left,
    filter due snap = (done ++ kv :: left)%list /\
    trace st' = (trace st ++ map command (done ++ [kv]))%list /\
    nodes st' = taken (done ++ [kv]) (nodes st) /\
    set_position (fst kv) (snd kv) (pyvlx st') = None /\
    RUNNING st' = RUNNING st /\ MQTT_CONN st' = MQTT_CONN st /\
    pyvlx_nodes st' = pyvlx_nodes st.
Proof.
  induction snap as [|[k v] snap IH]; simpl; intros st e st' Hrun;
    [discriminate|].
  change (due (k, v)) with (v >=? 0).
  destruct (v >=? 0); [|now apply IH].
  destruct (set_position k v _) as [h|] eqn:Hw.
  - apply IH in Hrun. simpl in Hrun.
    destruct Hrun as (He & done & kv & left & Hf & Htr & Hn & Hw' & Hr & Hc & Hp).
    split; [exact He|]. exists ((k, v) :: done), kv, left.
    rewrite Hf. simpl. repeat split; try assumption.
    rewrite Htr, <- app_assoc. reflexivity.
  - injection Hrun as <- <-. split; [reflexivity|].
    exists [], (k, v), (filter due snap). simpl.
    repeat split. exact Hw.
Qed.

(** Whatever the outcome, the loop issued a prefix of the due entries of
    its snapshot, and nothing else. *)
Lemma issue_loop_prefix snap (st : St) :
  exists done left,
    filter due snap = (done ++ left)%list /\
    since st (state_of (issue_loop snap st)) = map command done.
Proof.
  destruct (issue_loop snap st) as [st'|e st'] eqn:Hrun; simpl.
  - apply issue_loop_ok in Hrun. destruct Hrun as (Htr & _).
    exists (filter due snap), []. rewrite app_nil_r. split; [reflexivity|].
    now apply since_app.
  - apply issue_loop_raised in Hrun.
    destruct Hrun as (_ & done & kv & left & Hf & Htr & _).
    exists (done ++ [kv])%list, left. rewrite <- app_assoc. simpl.
    split; [exact Hf|]. now apply since_app.
Qed.

(** When the hub write fails, the entry it was for is already at -1. *)
Lemma taken_last done k v (d : Py.dict) :
  Py.get k (taken (done ++ [(k, v)]) d) = Some (-1).
Proof.
  unfold taken. rewrite fold_left_app. simpl. apply get_setitem_same.
Qed.

(* ------------------------------------------------------------------ *)
(** ** The message handler *)

Lemma stage_loop_parsed topic payload v :
  Py.int payload = Some v ->
  forall ns (st : St),
  exists st',
    stage_loop ns topic payload st = Ok st' /\
    trace st' = trace st /\ pyvlx st' = pyvlx st /\
    RUNNING st' = RUNNING st /\ MQTT_CONN st' = MQTT_CONN st /\
    pyvlx_nodes st' = pyvlx_nodes st /\
    (Py.wf (nodes st) -> Py.wf (nodes st')) /\
    (forall k, Py.get k (nodes st') =
               if staged_by topic ns k then Some v else Py.get k (nodes st)).
Proof.
  intros Hint. induction ns as [|node ns IH]; intros st; simpl.
  - exists st. repeat split; auto.
  - change (Py.contains (name node ++ "/set") topic)
      with (addressed topic node).
    destruct (addressed topic node) eqn:Ha; simpl.
    + rewrite Hint.
      destruct (IH (stage (name node) v st))
        as (st' & Hrun & Htr & Hh & Hr & Hc & Hp & Hwf & Hget).
      exists st'. simpl in *. repeat split; try assumption.
      * intros Hd. apply Hwf. now apply wf_setitem.
      * intros k. rewrite Hget. rewrite andb_true_r.
        destruct (staged_by topic ns k); [now rewrite orb_true_r|].
        rewrite orb_false_r.
        destruct (String.eqb_spec k (name node)) as [->|Hne].
        -- apply get_setitem_same.
        -- apply get_setitem_other. congruence.
    + destruct (IH st) as (st' & Hrun & Htr & Hh & Hr & Hc & Hp & Hwf & Hget).
      exists st'. repeat split; try assumption.
      intros k. rewrite Hget. now rewrite andb_false_r.
Qed.

Lemma stage_loop_unparsed topic payload :
  Py.int payload = None ->
  forall ns (st : St),
    stage_loop ns topic payload st =
    if existsb (addressed topic) ns then Raised ValueError st else Ok st.
Proof.
  intros Hint. induction ns as [|node ns IH]; intros st; simpl;
    [reflexivity|].
  change (Py.contains (name node ++ "/set") topic)
    with (addressed topic node).
  destruct (addressed topic node); simpl; [now rewrite Hint|apply IH].
Qed.

Lemma prefix_self s : String.prefix s s = true.
Proof.
  induction s as [|c s IH]; simpl; [reflexivity|].
  destruct (ascii_dec c c); [exact IH|contradiction].
Qed.

Lemma contains_at_end needle pre :
  Py.contains needle (pre ++ needle) = true.
Proof.
  induction pre as [|c pre IH]; simpl.
  - destruct needle; simpl; [reflexivity|].
    destruct (ascii_dec a a); [|contradiction].
    now rewrite prefix_self.
  - rewrite IH. apply orb_true_r.
Qed.

Lemma append_assoc (a b c : string) : (a ++ b) ++ c = a ++ (b ++ c).
Proof. induction a as [|x a IH]; simpl; [reflexivity|now rewrite IH]. Qed.

(** The topic the bridge subscribes to for a device is taken by the
    handler as a command for that device. *)
Lemma own_topic_addressed node : addressed (set_topic (name node)) node = true.
Proof.
  unfold addressed, set_topic.
  rewrite <- (append_assoc ROOTTOPIC "/" (name node ++ "/set")).
  apply contains_at_end.
Qed.

Lemma staged_by_member topic ns node :
  In node ns -> addressed topic node = true ->
  staged_by topic ns (name node) = true.
Proof.
  intros Hin Ha. unfold staged_by. apply existsb_exists.
  exists node. split; [exact Hin|]. now rewrite String.eqb_refl, Ha.
Qed.


(** X2.  The topic [mqtt_on_connect] subscribes to for a device is a
    topic [mqtt_on_message] takes as a command for that device: a
    parsable payload on it ends up in the table under the device's
    name. *)
Lemma own_topic_staged node payload v (s : St) :
  In node (pyvlx_nodes s) -> Py.int payload = Some v ->
  exists s',
    mqtt_on_message (set_topic (name node)) payload s = Ok s' /\
    Py.get (name node) (nodes s') = Some v.
Proof.
  intros Hin Hp.
  destruct (stage_loop_parsed (set_topic (name node)) payload v Hp
              (pyvlx_nodes s) s) as (s' & Hrun & _ & _ & _ & _ & _ & _ & Hg).
  exists s'. split; [exact Hrun|].
  rewrite Hg, staged_by_member; [reflexivity|exact Hin|].
  apply own_topic_addressed.
Qed.

(* ------------------------------------------------------------------ *)
(** ** What a tick issues *)

(** A pending entry is issued once, with the value the table holds, and
    is at -1 afterwards. *)
Lemma issue_entry d v (st st' : St) :
  Py.wf (nodes st) -> Py.get d (nodes st) = Some v -> 0 <= v ->
  issue_pending st = Ok st' ->
  commands_for d (since st st') = [v] /\ Py.get d (nodes st') = Some (-1).
Proof.
  intros Hwf Hget Hv Hrun. unfold issue_pending, Py.items in Hrun.
  apply issue_loop_ok in Hrun. destruct Hrun as (Htr & Hn & _).
  rewrite (since_app _ _ _ Htr), commands_for_due, Hget by exact Hwf.
  assert (Hdue : (v >=? 0) = true) by (apply Z.geb_le; lia).
  rewrite Hdue. split; [reflexivity|].
  rewrite Hn, taken_all, get_cleared, Hget by exact Hwf. simpl.
  now rewrite Hdue.
Qed.

(** No device is written twice by one pass of the loop, whether the pass
    completes or not. *)
Lemma issue_at_most_once k (st : St) :
  Py.wf (nodes st) ->
  (List.length
     (commands_for k (since st (state_of (issue_pending st)))) <= 1)%nat.
Proof.
  intros Hwf. unfold issue_pending, Py.items.
  destruct (issue_loop_prefix (nodes st) st) as (done & left & Hf & Hs).
  rewrite Hs.
  pose proof (commands_for_due k (nodes st) Hwf) as Hall.
  rewrite Hf, map_app, commands_for_app in Hall.
  assert (Hlen : (List.length (commands_for k (map command done)
                               ++ commands_for k (map command left)) <= 1)%nat).
  { rewrite Hall. destruct (Py.get k (nodes st)) as [v|]; simpl; [|lia].
    destruct (v >=? 0); simpl; lia. }
  rewrite length_app in Hlen. lia.
Qed.

(** The loop only ever passes a non-negative value to the hub. *)
Lemma issued_nonneg snap (s : St) k w :
  In (SetPosition k w) (since s (state_of (issue_loop snap s))) -> 0 <= w.
Proof.
  destruct (issue_loop_prefix snap s) as (done & left & Hf & Hs).
  rewrite Hs. intros Hin. apply in_map_iff in Hin.
  destruct Hin as ([k' w'] & Heq & Hin). injection Heq as -> ->.
  assert (Hd : In (k, w) (filter due snap))
    by (rewrite Hf; apply in_or_app; now left).
  apply filter_In in Hd. destruct Hd as (_ & Hd).
  change (due (k, w)) with (w >=? 0) in Hd. apply Z.geb_le in Hd. lia.
Qed.

(** An entry that is not due stays out of the pass, whatever its
    outcome. *)
Lemma not_due_not_issued d v (st : St) :
  Py.wf (nodes st) -> Py.get d (nodes st) = Some v -> v < 0 ->
  commands_for d (since st (state_of (issue_pending st))) = [].
Proof.
  intros Hwf Hget Hv. unfold issue_pending, Py.items.
  destruct (issue_loop_prefix (nodes st) st) as (done & left & Hf & Hs).
  rewrite Hs.
  pose proof (commands_for_due d (nodes st) Hwf) as Hall.
  rewrite Hf, map_app, commands_for_app, Hget in Hall.
  assert (Hdue : (v >=? 0) = false) by (rewrite Z.geb_leb; apply Z.leb_gt; lia).
  rewrite Hdue in Hall. now apply app_eq_nil in Hall.
Qed.

Lemma get_taken_kept k done (d : Py.dict) :
  Py.get k d = Some (-1) -> Py.get k (taken done d) = Some (-1).
Proof.
  revert d. induction done as [|[k' v'] done IH]; intros d Hget; simpl;
    [exact Hget|].
  apply IH. destruct (String.eqb_spec k' k) as [->|Hne].
  - apply get_setitem_same.
  - now rewrite get_setitem_other.
Qed.

Lemma get_taken_member k done (d : Py.dict) :
  In k (map fst done) -> Py.get k (taken done d) = Some (-1).
Proof.
  revert d. induction done as [|[k' v'] done IH]; intros d Hin; simpl in *;
    [contradiction|].
  destruct (in_dec string_dec k (map fst done)) as [Hlater|Hnot].
  - now apply IH.
  - destruct Hin as [->|Hin]; [|contradiction].
    apply get_taken_kept, get_setitem_same.
Qed.

(** Every device a pass has written to, the failing write included, is
    at -1 in the table the pass leaves behind. *)
Lemma issued_is_reset (st : St) k w :
  In (SetPosition k w) (since st (state_of (issue_pending st))) ->
  Py.get k (nodes (state_of (issue_pending st))) = Some (-1).
Proof.
  unfold issue_pending, Py.items.
  destruct (issue_loop (nodes st) st) as [st'|e st'] eqn:Hrun; simpl.
  - apply issue_loop_ok in Hrun. destruct Hrun as (Htr & Hn & _).
    rewrite (since_app _ _ _ Htr), Hn. intros Hin.
    apply get_taken_member. apply in_map_iff in Hin.
    destruct Hin as (kv & Heq & Hin). injection Heq as <- _.
    now apply in_map.
  - apply issue_loop_raised in Hrun.
    destruct Hrun as (_ & done & kv & left & _ & Htr & Hn & _).
    rewrite (since_app _ _ _ Htr), Hn. intros Hin.
    apply get_taken_member. apply in_map_iff in Hin.
    destruct Hin as (kv' & Heq & Hin). injection Heq as <- _.
    now apply in_map.
Qed.

(** Assigning twice to a key is assigning the second value. *)
Lemma setitem_twice k v1 v2 (d : Py.dict) :
  Py.setitem k v2 (Py.setitem k v1 d) = Py.setitem k v2 d.
Proof.
  induction d as [|[k' v'] d IH]; simpl.
  - now rewrite String.eqb_refl.
  - destruct (String.eqb_spec k k') as [->|Hne]; simpl.
    + now rewrite String.eqb_refl.
    + destruct (String.eqb_spec k k'); [contradiction|]. now rewrite IH.
Qed.

Lemma since_self (st : St) : since st st = [].
Proof. apply since_app. now rewrite app_nil_r. Qed.

(** A completed pass leaves nothing due. *)
Lemma issue_pending_settles (st st1 : St) :
  Py.wf (nodes st) -> issue_pending st = Ok st1 -> issue_pending st1 = Ok st1.
Proof.
  intros Hwf Hrun. unfold issue_pending, Py.items in *.
  apply issue_loop_ok in Hrun. destruct Hrun as (_ & Hn & _).
  apply issue_loop_idle. rewrite Hn, taken_all by exact Hwf.
  apply cleared_not_due.
Qed.

(* ------------------------------------------------------------------ *)
(** ** The command table: the claims *)

(** C2.  A pass of the loop resets every entry it issues to -1 before the
    hub write returns: the table a pass leaves behind, also when a write
    raised, holds -1 for every device the pass wrote to.  So a completed
    pass issues a pending entry once, and a second pass right after it
    issues nothing. *)
Theorem issued_once_then_cleared d v (st : St) :
  Py.wf (nodes st) -> Py.get d (nodes st) = Some v -> 0 <= v ->
  (forall k w,
      In (SetPosition k w) (since st (state_of (issue_pending st))) ->
      Py.get k (nodes (state_of (issue_pending st))) = Some (-1)) /\
  (forall st1,
      issue_pending st = Ok st1 ->
      commands_for d (since st st1) = [v] /\
      issue_pending st1 = Ok st1 /\
      commands_for d (since st1 (state_of (issue_pending st1))) = []).
Proof.
  intros Hwf Hget Hv. split.
  - intros k w. apply issued_is_reset.
  - intros st1 Hrun.
    pose proof (issue_pending_settles st st1 Hwf Hrun) as Hagain.
    split; [now apply (issue_entry d v st st1)|].
    split; [exact Hagain|].
    rewrite Hagain. simpl. now rewrite since_self.
Qed.

(** C4.  The loop never passes -1 to the hub; an entry staged at -1 is
    not issued; an entry staged at 0 or at 100 is held by the table,
    issued with that value by the next pass, and reset. *)
Theorem sentinel_skipped_bounds_issued d (st : St) :
  Py.wf (nodes st) ->
  (forall snap (s : St) k w,
      In (SetPosition k w) (since s (state_of (issue_loop snap s))) ->
      w <> -1) /\
  commands_for d (since st (state_of (issue_pending (stage d (-1) st)))) = [] /\
  (forall v st',
      v = 0 \/ v = 100 ->
      issue_pending (stage d v st) = Ok st' ->
      Py.get d (nodes (stage d v st)) = Some v /\
      commands_for d (since st st') = [v] /\
      Py.get d (nodes st') = Some (-1)).
Proof.
  intros Hwf. split; [|split].
  - intros snap s k w Hin. apply issued_nonneg in Hin. lia.
  - apply (not_due_not_issued d (-1) (stage d (-1) st)).
    + simpl. now apply wf_setitem.
    + simpl. apply get_setitem_same.
    + lia.
  - intros v st' Hv Hrun.
    assert (Hget : Py.get d (nodes (stage d v st)) = Some v)
      by (simpl; apply get_setitem_same).
    split; [exact Hget|].
    apply (issue_entry d v (stage d v st) st'); try assumption.
    + simpl. now apply wf_setitem.
    + lia.
Qed.

(** C10.  Every value the loop passes to the hub is non-negative.  A
    command with a negative payload is stored in the table as it is, is
    not issued, and is left in place by the pass. *)
Theorem negative_command_never_issued node topic payload v (st : St) :
  Py.wf (nodes st) -> In node (pyvlx_nodes st) ->
  addressed topic node = true -> Py.int payload = Some v -> v < 0 ->
  (forall snap (s : St) k w,
      In (SetPosition k w) (since s (state_of (issue_loop snap s))) ->
      0 <= w) /\
  exists st1,
    mqtt_on_message topic payload st = Ok st1 /\
    Py.get (name node) (nodes st1) = Some v /\
    commands_for (name node) (since st1 (state_of (issue_pending st1))) = [] /\
    (forall st2,
        issue_pending st1 = Ok st2 ->
        Py.get (name node) (nodes st2) = Some v).
Proof.
  intros Hwf Hin Ha Hp Hv. split; [intros snap s k w; apply issued_nonneg|].
  destruct (stage_loop_parsed topic payload v Hp (pyvlx_nodes st) st)
    as (st1 & Hrun & _ & _ & _ & _ & _ & Hw1 & Hg1).
  fold (mqtt_on_message topic payload st) in Hrun.
  specialize (Hw1 Hwf).
  assert (Hget : Py.get (name node) (nodes st1) = Some v)
    by (now rewrite Hg1, staged_by_member).
  exists st1. repeat split; try assumption.
  - now apply (not_due_not_issued (name node) v st1).
  - intros st2 Hrun2. unfold issue_pending, Py.items in Hrun2.
    apply issue_loop_ok in Hrun2. destruct Hrun2 as (_ & Hn & _).
    rewrite Hn, taken_all, get_cleared, Hget by exact Hw1. simpl.
    assert (Hdue : (v >=? 0) = false)
      by (rewrite Z.geb_leb; apply Z.leb_gt; lia).
    now rewrite Hdue.
Qed.

(* ------------------------------------------------------------------ *)
(** ** What the callbacks leave alone *)

Lemma subscribe_devices_run ns : forall s : St,
  trace (subscribe_devices ns s) =
    (trace s ++ map (fun node => Subscribe (set_topic (name node)))
                    (filter is_opening ns))%list /\
  RUNNING (subscribe_devices ns s) = RUNNING s /\
  MQTT_CONN (subscribe_devices ns s) = MQTT_CONN s /\
  nodes (subscribe_devices ns s) = nodes s /\
  pyvlx_nodes (subscribe_devices ns s) = pyvlx_nodes s /\
  pyvlx (subscribe_devices ns s) = pyvlx s.
Proof.
  induction ns as [|node ns IH]; intros s; simpl.
  - rewrite app_nil_r. repeat split.
  - destruct (is_opening node); [|apply IH].
    destruct (IH (emit (Subscribe (set_topic (name node))) s))
      as (Htr & Hrest).
    split; [|exact Hrest]. rewrite Htr. simpl. now rewrite <- app_assoc.
Qed.

Lemma stage_loop_frame topic payload ns : forall s : St,
  let s' := state_of (stage_loop ns topic payload s) in
  trace s' = trace s /\ RUNNING s' = RUNNING s /\
  MQTT_CONN s' = MQTT_CONN s /\ pyvlx s' = pyvlx s /\
  pyvlx_nodes s' = pyvlx_nodes s /\
  (Py.wf (nodes s) -> Py.wf (nodes s')).
Proof.
  induction ns as [|node ns IH]; intros s; simpl; [repeat split; auto|].
  destruct (negb _); [apply IH|].
  destruct (Py.int payload) as [v|]; simpl; [|repeat split; auto].
  destruct (IH (stage (name node) v s)) as (Ht & Hr & Hc & Hh & Hp & Hwf).
  simpl in *. repeat split; try assumption.
  intros Hd. now apply Hwf, wf_setitem.
Qed.

Lemma mqtt_on_connect_fatal rc (s : St) :
  rc <> 0 -> rc <> 3 -> mqtt_on_connect rc s = cleanup SIGTERM s.
Proof.
  intros H0 H3. unfold mqtt_on_connect.
  destruct (Z.eqb_spec rc 0); [contradiction|].
  destruct (Z.eqb_spec rc 3); [contradiction|].
  destruct (rc =? 1), (rc =? 2), (rc =? 4), (rc =? 5); reflexivity.
Qed.

(** No callback sets [RUNNING] back to true, touches the hub or breaks
    the table. *)
Lemma deliver_frame (s : St) ev :
  (RUNNING s = false -> RUNNING (deliver s ev) = false) /\
  pyvlx (deliver s ev) = pyvlx s /\
  pyvlx_nodes (deliver s ev) = pyvlx_nodes s /\
  (Py.wf (nodes s) -> Py.wf (nodes (deliver s ev))).
Proof.
  destruct ev as [rc|rc|topic payload|signum|node]; unfold deliver; simpl.
  - unfold mqtt_on_connect.
    destruct (subscribe_devices_run (pyvlx_nodes s)
                (emit (Publish STATUSTOPIC (PStr "CONNECTED") true) s))
      as (_ & Hr & _ & Hn & Hp & Hh).
    destruct (rc =? 0); simpl.
    + rewrite Hr, Hn, Hp, Hh. simpl. repeat split; auto.
    + destruct (rc =? 1), (rc =? 2), (rc =? 3), (rc =? 4), (rc =? 5);
        simpl; repeat split; auto.
  - unfold mqtt_on_disconnect. destruct (rc =? 0); simpl; repeat split; auto.
  - unfold mqtt_on_message.
    destruct (stage_loop_frame topic payload (pyvlx_nodes s) s)
      as (_ & Hr & _ & Hh & Hp & Hwf).
    destruct (stage_loop _ _ _ s); simpl in *; rewrite Hr; repeat split; auto.
  - repeat split; auto.
  - unfold vlx_cb. destruct (negb _); simpl; repeat split; auto.
Qed.

Lemma deliver_all_frame evs : forall s : St,
  (RUNNING s = false -> RUNNING (deliver_all evs s) = false) /\
  pyvlx (deliver_all evs s) = pyvlx s /\
  pyvlx_nodes (deliver_all evs s) = pyvlx_nodes s /\
  (Py.wf (nodes s) -> Py.wf (nodes (deliver_all evs s))).
Proof.
  unfold deliver_all.
  induction evs as [|ev evs IH]; intros s; simpl; [repeat split; auto|].
  destruct (deliver_frame s ev) as (Hr & Hh & Hp & Hwf).
  destruct (IH (deliver s ev)) as (Hr' & Hh' & Hp' & Hwf').
  rewrite Hh', Hp', Hh, Hp. repeat split; auto.
Qed.

Lemma deliver_all_app evs1 evs2 (s : St) :
  deliver_all (evs1 ++ evs2) s = deliver_all evs2 (deliver_all evs1 s).
Proof. unfold deliver_all. apply fold_left_app. Qed.

(** Once a fatal refusal is among the delivered callbacks, [RUNNING] is
    false. *)
Lemma refused_stops rc evs1 evs2 (s : St) :
  rc <> 0 -> rc <> 3 ->
  RUNNING (deliver_all (evs1 ++ OnConnect rc :: evs2) s) = false.
Proof.
  intros H0 H3. rewrite deliver_all_app.
  change (deliver_all (OnConnect rc :: evs2) (deliver_all evs1 s))
    with (deliver_all evs2 (mqtt_on_connect rc (deliver_all evs1 s))).
  apply deliver_all_frame. now rewrite mqtt_on_connect_fatal.
Qed.

(* ------------------------------------------------------------------ *)
(** ** Leaving the main loop *)

Lemma main_loop_stopped sched (st : St) :
  RUNNING st = false -> main_loop sched st = shutdown st.
Proof. intros Hr. destruct sched; simpl; now rewrite Hr. Qed.

Lemma shutdown_run (st : St) h :
  disconnect (pyvlx st) = Some h ->
  exists st2,
    shutdown st = Exited st2 /\
    trace st2 =
      (trace st ++
       [Publish STATUSTOPIC (PStr "DISCONNECTING KLF") true;
        HubDisconnect;
        Publish STATUSTOPIC (PStr "DISCONNECTED KLF") true;
        Publish STATUSTOPIC (PStr "DISCONNECTED") true;
        Disconnect;
        LoopStop])%list /\
    last (publishes (trace st2)) (STATUSTOPIC, PStr "", false) =
      (STATUSTOPIC, PStr "DISCONNECTED", true).
Proof.
  intros Hd. unfold shutdown. simpl. rewrite Hd.
  eexists. split; [reflexivity|]. simpl.
  repeat rewrite <- app_assoc. split; [reflexivity|].
  rewrite publishes_app. simpl.
  change [(STATUSTOPIC, PStr "DISCONNECTING KLF", true);
          (STATUSTOPIC, PStr "DISCONNECTED KLF", true);
          (STATUSTOPIC, PStr "DISCONNECTED", true)]
    with ([(STATUSTOPIC, PStr "DISCONNECTING KLF", true);
           (STATUSTOPIC, PStr "DISCONNECTED KLF", true)]
          ++ [(STATUSTOPIC, PStr "DISCONNECTED", true)])%list.
  rewrite app_assoc. apply last_last.
Qed.

Lemma connect_retry_frame results : forall st : St,
  pyvlx (snd (connect_retry results st)) = pyvlx st /\
  RUNNING (snd (connect_retry results st)) = RUNNING st /\
  nodes (snd (connect_retry results st)) = nodes st.
Proof.
  induction results as [|r results IH]; intros st; simpl;
    [repeat split|].
  destruct (negb (r =? 0)); simpl; [|repeat split].
  destruct (IH (emit (Sleep 10) (emit Connect st))) as (Hh & Hr & Hn).
  now rewrite Hh, Hr, Hn.
Qed.

Lemma register_callbacks_frame ns : forall s : St,
  pyvlx (register_callbacks ns s) = pyvlx s /\
  RUNNING (register_callbacks ns s) = RUNNING s /\
  nodes (register_callbacks ns s) = nodes s.
Proof.
  induction ns as [|node ns IH]; intros s; simpl; [repeat split|].
  destruct (is_opening node); [|apply IH].
  destruct (IH (emit (RegisterCb (name node)) s)) as (Hh & Hr & Hn).
  now rewrite Hh, Hr, Hn.
Qed.

(** X17.  A fatal refusal that arrives during the pause of the start-up:
    [main] returns without entering a tick (the run is the same with an
    empty schedule), and the last publish of the run is the retained
    [DISCONNECTED] of the shutdown sequence.  (The hub disconnect is
    assumed to return.) *)
Lemma fatal_refusal_at_startup rc results roster evs1 evs2 sched
    (st st1 : St) h :
  rc <> 0 -> rc <> 3 ->
  connect_retry results st = (true, st1) ->
  disconnect (pyvlx st) = Some h ->
  exists st2,
    main results roster (evs1 ++ OnConnect rc :: evs2) sched st = Exited st2 /\
    main results roster (evs1 ++ OnConnect rc :: evs2) [] st = Exited st2 /\
    last (publishes (trace st2)) (STATUSTOPIC, PStr "", false) =
      (STATUSTOPIC, PStr "DISCONNECTED", true).
Proof.
  intros H0 H3 Hc Hd. unfold main. rewrite Hc.
  set (st5 := deliver_all (evs1 ++ OnConnect rc :: evs2) _).
  set (st6 := emit (Publish STATUSTOPIC (PStr "KLF200_available") true) st5).
  destruct (register_callbacks_frame (pyvlx_nodes st6) st6) as (Hh & Hr & _).
  assert (Hstop : RUNNING (register_callbacks (pyvlx_nodes st6) st6) = false).
  { rewrite Hr. simpl. unfold st5. now apply refused_stops. }
  assert (Hhub : pyvlx (register_callbacks (pyvlx_nodes st6) st6) = pyvlx st).
  { rewrite Hh. simpl. unfold st5.
    destruct (deliver_all_frame (evs1 ++ OnConnect rc :: evs2)
                (emit (Sleep 2)
                   (emit LoopStart
                      (emit LoadNodes
                         (set_pyvlx_nodes roster
                            (emit (Publish STATUSTOPIC (PStr "STARTED") true)
                               st1))))))
      as (_ & Hp & _).
    rewrite Hp. simpl.
    pose proof (connect_retry_frame results st) as (Hfr & _).
    now rewrite Hc in Hfr. }
  rewrite !main_loop_stopped by exact Hstop.
  rewrite <- Hhub in Hd.
  destruct (shutdown_run _ h Hd) as (st2 & Hs & _ & Hlast).
  exists st2. split; [exact Hs|]. split; [exact Hs|exact Hlast].
Qed.

(** C5, as the code has it.  Nothing in [main] catches an exception of
    the hub write: it leaves the loop and [main] at once.  No later tick
    runs, the shutdown sequence does not run, and the failed command is
    already reset to -1 in the table. *)
Theorem hub_failure_ends_main evs rest (st : St) e (st' : St) :
  RUNNING st = true -> tick evs st = Raised e st' ->
  main_loop (evs :: rest) st = Crashed e st' /\
  e = HubError /\
  exists d v before,
    trace st' = (before ++ [SetPosition d v])%list /\
    set_position d v (pyvlx st') = None /\
    Py.get d (nodes st') = Some (-1).
Proof.
  intros Hr Hrun. split; [simpl; now rewrite Hr, Hrun|].
  unfold tick, issue_pending, Py.items in Hrun.
  apply issue_loop_raised in Hrun.
  destruct Hrun as (He & done & [d v] & left & _ & Htr & Hn & Hw & _).
  split; [exact He|]. exists d, v. eexists. split; [|split].
  - rewrite Htr, map_app, app_assoc. reflexivity.
  - exact Hw.
  - rewrite Hn. apply taken_last.
Qed.

(** C6, as the code has it.  A payload that [int] rejects stages
    nothing.  The handler returns normally when no name of the roster
    occurs in the topic; otherwise it raises [ValueError] to its caller.
    The globals are as they were in both cases. *)
Theorem unparsable_payload_raises topic payload (st : St) :
  Py.int payload = None ->
  mqtt_on_message topic payload st =
    (if existsb (addressed topic) (pyvlx_nodes st)
     then Raised ValueError st else Ok st) /\
  deliver st (OnMessage topic payload) = st.
Proof.
  intros Hp. unfold deliver, handle, mqtt_on_message.
  rewrite (stage_loop_unparsed topic payload Hp).
  split; [reflexivity|]. now destruct (existsb _ _).
Qed.

(* ------------------------------------------------------------------ *)
(** ** The broker connection: the claims *)

(** C7.  A refusal with any return code other than 0 and 3 only sets
    [RUNNING] to false: no sleep, no new attempt.  When it arrives during
    a tick, the loop is left after that tick and the shutdown sequence
    runs; its last publish is the retained [DISCONNECTED] on the status
    topic.  (The hub calls on the way are assumed to return.) *)
Theorem fatal_refusal_shuts_down rc evs1 evs2 rest (st st1 : St) h :
  rc <> 0 -> rc <> 3 -> RUNNING st = true ->
  tick (evs1 ++ OnConnect rc :: evs2) st = Ok st1 ->
  disconnect (pyvlx st1) = Some h ->
  (forall s : St, mqtt_on_connect rc s = cleanup SIGTERM s) /\
  exists st2,
    main_loop ((evs1 ++ OnConnect rc :: evs2)%list :: rest) st = Exited st2 /\
    since st1 st2 =
      [Publish STATUSTOPIC (PStr "DISCONNECTING KLF") true;
       HubDisconnect;
       Publish STATUSTOPIC (PStr "DISCONNECTED KLF") true;
       Publish STATUSTOPIC (PStr "DISCONNECTED") true;
       Disconnect;
       LoopStop] /\
    last (publishes (trace st2)) (STATUSTOPIC, PStr "", false) =
      (STATUSTOPIC, PStr "DISCONNECTED", true).
Proof.
  intros H0 H3 Hr Hrun Hd.
  split; [intros s; now apply mqtt_on_connect_fatal|].
  assert (Hstop : RUNNING st1 = false).
  { pose proof Hrun as Hrun'. unfold tick, issue_pending in Hrun'.
    apply issue_loop_ok in Hrun'. destruct Hrun' as (_ & _ & Hr1 & _).
    rewrite Hr1. now apply refused_stops. }
  destruct (shutdown_run st1 h Hd) as (st2 & Hs & Htr & Hlast).
  exists st2. split; [|split].
  - simpl. rewrite Hr, Hrun. now rewrite main_loop_stopped.
  - now apply since_app.
  - exact Hlast.
Qed.

Lemma refusals_then_accept n : forall st : St,
  let st' := deliver_all (repeat (OnConnect 3) n ++ [OnConnect 0]) st in
  trace st' =
    (trace st ++ repeat (Sleep 10) n ++
     Publish STATUSTOPIC (PStr "CONNECTED") true ::
     map (fun node => Subscribe (set_topic (name node)))
         (filter is_opening (pyvlx_nodes st)))%list /\
  RUNNING st' = RUNNING st /\ MQTT_CONN st' = true.
Proof.
  induction n as [|n IH]; intros st; cbv zeta.
  - unfold deliver_all, deliver, mqtt_on_connect. simpl.
    destruct (subscribe_devices_run (pyvlx_nodes st)
                (emit (Publish STATUSTOPIC (PStr "CONNECTED") true) st))
      as (Htr & Hr & _).
    rewrite Htr, Hr. simpl. rewrite <- app_assoc. auto.
  - assert (Hstep :
      deliver_all (repeat (OnConnect 3) (S n) ++ [OnConnect 0]) st =
      deliver_all (repeat (OnConnect 3) n ++ [OnConnect 0])
                  (emit (Sleep 10) st)) by reflexivity.
    rewrite Hstep. destruct (IH (emit (Sleep 10) st)) as (Htr & Hr & Hc).
    cbv zeta in Htr, Hr, Hc. rewrite Htr, Hr, Hc. simpl.
    rewrite <- app_assoc. auto.
Qed.

Lemma connect_retry_run n : forall st : St,
  let r := connect_retry (repeat 3 n ++ [0]) st in
  fst r = true /\
  trace (snd r) =
    (trace st ++ List.concat (repeat [Connect; Sleep 10] n) ++ [Connect])%list /\
  RUNNING (snd r) = RUNNING st /\ MQTT_CONN (snd r) = MQTT_CONN st.
Proof.
  induction n as [|n IH]; intros st; cbv zeta; [simpl; auto|].
  assert (Hstep :
    connect_retry (repeat 3 (S n) ++ [0]) st =
    connect_retry (repeat 3 n ++ [0]) (emit (Sleep 10) (emit Connect st)))
    by reflexivity.
  rewrite Hstep.
  destruct (IH (emit (Sleep 10) (emit Connect st))) as (Hf & Htr & Hr & Hc).
  cbv zeta in Hf, Htr, Hr, Hc. rewrite Hf, Htr, Hr, Hc. simpl.
  repeat rewrite <- app_assoc. auto.
Qed.

(** C8.  Return code 3 makes [mqtt_on_connect] sleep 10 seconds and
    nothing else.  After any number [n] of such refusals and then an
    acceptance, the handler has slept [n] times 10 seconds, [RUNNING] is
    untouched, the retained [CONNECTED] is published, every opening
    device is subscribed and [MQTT_CONN] is true.  The connect loop of
    [main] behaves alike: [n] failed calls are followed by [n] sleeps of
    10 seconds and a call each. *)
Theorem transient_refusal_retries n (st : St) :
  (forall s : St, mqtt_on_connect 3 s = emit (Sleep 10) s) /\
  (let st' := deliver_all (repeat (OnConnect 3) n ++ [OnConnect 0]) st in
   since st st' =
     (repeat (Sleep 10) n ++
      Publish STATUSTOPIC (PStr "CONNECTED") true ::
      map (fun node => Subscribe (set_topic (name node)))
          (filter is_opening (pyvlx_nodes st)))%list /\
   slept (since st st') = repeat 10 n /\
   RUNNING st' = RUNNING st /\ MQTT_CONN st' = true) /\
  (let r := connect_retry (repeat 3 n ++ [0]) st in
   fst r = true /\
   since st (snd r) =
     (List.concat (repeat [Connect; Sleep 10] n) ++ [Connect])%list /\
   RUNNING (snd r) = RUNNING st).
Proof.
  split; [reflexivity|]. split.
  - destruct (refusals_then_accept n st) as (Htr & Hr & Hc).
    simpl. rewrite (since_app _ _ _ Htr). repeat split; try assumption.
    rewrite slept_app.
    assert (Hs : forall m, slept (repeat (Sleep 10) m) = repeat 10 m)
      by (induction m as [|m IHm]; simpl; [|rewrite IHm]; reflexivity).
    assert (Hz : forall l : list Node,
               slept (map (fun node => Subscribe (set_topic (name node))) l)
               = [])
      by (induction l as [|x l IHl]; simpl; [|rewrite IHl]; reflexivity).
    rewrite Hs. simpl. rewrite Hz. apply app_nil_r.
  - destruct (connect_retry_run n st) as (Hf & Htr & Hr & _).
    simpl. repeat split; try assumption. now apply since_app.
Qed.

(** C9.  With [MQTT_CONN] false, [vlx_cb] returns without publishing and
    without raising, for every node; and [mqtt_on_disconnect] always
    leaves [MQTT_CONN] false. *)
Theorem publish_skipped_when_disconnected node (st : St) :
  MQTT_CONN st = false ->
  vlx_cb node st = Ok st /\
  (forall rc (s : St),
      vlx_cb node (mqtt_on_disconnect rc s) = Ok (mqtt_on_disconnect rc s)).
Proof.
  intros Hc. unfold vlx_cb. rewrite Hc. split; [reflexivity|].
  intros rc s. unfold mqtt_on_disconnect. now destruct (rc =? 0).
Qed.

(* ------------------------------------------------------------------ *)
(** ** The table stays a dict *)

Lemma wf_taken done : forall d : Py.dict, Py.wf d -> Py.wf (taken done d).
Proof.
  induction done as [|[k v] done IH]; intros d Hd; simpl; [exact Hd|].
  now apply IH, wf_setitem.
Qed.

(** Every state [main] goes through from [initial] has a table with
    pairwise distinct keys: a tick keeps it so. *)
Lemma tick_keeps_wf evs (st : St) :
  Py.wf (nodes st) -> Py.wf (nodes (state_of (tick evs st))).
Proof.
  intros Hwf. unfold tick, issue_pending, Py.items.
  assert (Hev : Py.wf (nodes (deliver_all evs (emit (Sleep 1) st))))
    by (now apply deliver_all_frame).
  revert Hev. generalize (deliver_all evs (emit (Sleep 1) st)). intros s Hs.
  destruct (issue_loop (nodes s) s) as [s'|e s'] eqn:Hrun; simpl.
  - apply issue_loop_ok in Hrun. destruct Hrun as (_ & Hn & _).
    rewrite Hn. now apply wf_taken.
  - apply issue_loop_raised in Hrun.
    destruct Hrun as (_ & done & kv & left & _ & _ & Hn & _).
    rewrite Hn. now apply wf_taken.
Qed.

Lemma initial_wf (h : Hub) : Py.wf (nodes (initial h)).
Proof. apply NoDup_nil. Qed.

(* ------------------------------------------------------------------ *)
(** ** The message handler, beyond the claims *)

(** X1.  With a payload that [int] accepts, [mqtt_on_message] never
    raises; it assigns the parsed value to exactly the names of the roster
    that occur, followed by [/set], in the topic, and changes nothing
    else. *)
Theorem valid_payload_stages topic payload v (st : St) :
  Py.int payload = Some v ->
  exists st',
    mqtt_on_message topic payload st = Ok st' /\
    trace st' = trace st /\ pyvlx st' = pyvlx st /\
    RUNNING st' = RUNNING st /\ MQTT_CONN st' = MQTT_CONN st /\
    pyvlx_nodes st' = pyvlx_nodes st /\
    (forall k, Py.get k (nodes st') =
               if staged_by topic (pyvlx_nodes st) k then Some v
               else Py.get k (nodes st)).
Proof.
  intros Hp.
  destruct (stage_loop_parsed topic payload v Hp (pyvlx_nodes st) st)
    as (st' & Hrun & Ht & Hh & Hr & Hc & Hn & _ & Hg).
  exists st'. unfold mqtt_on_message. repeat split; assumption.
Qed.

Lemma stage_loop_unaddressed topic payload ns : forall st : St,
  existsb (addressed topic) ns = false ->
  stage_loop ns topic payload st = Ok st.
Proof.
  induction ns as [|node ns IH]; intros st Hnone; simpl; [reflexivity|].
  simpl in Hnone. apply orb_false_iff in Hnone. destruct Hnone as (Ha & Hns).
  change (Py.contains (name node ++ "/set") topic)
    with (addressed topic node).
  rewrite Ha. simpl. now apply IH.
Qed.

(** X3.  A message whose topic contains no [name + "/set"] of the roster
    is ignored, whatever its payload: the handler returns normally and the
    state is as before. *)
Theorem unaddressed_topic_ignored topic payload (st : St) :
  existsb (addressed topic) (pyvlx_nodes st) = false ->
  mqtt_on_message topic payload st = Ok st.
Proof. intros Hnone. now apply stage_loop_unaddressed. Qed.

(* ------------------------------------------------------------------ *)
(** ** What the callbacks do to the globals *)

Lemma deliver_nodes (s : St) ev :
  (forall topic payload, ev <> OnMessage topic payload) ->
  nodes (deliver s ev) = nodes s.
Proof.
  intros Hev.
  destruct ev as [rc|rc|topic payload|signum|node]; unfold deliver; simpl.
  - unfold mqtt_on_connect.
    destruct (subscribe_devices_run (pyvlx_nodes s)
                (emit (Publish STATUSTOPIC (PStr "CONNECTED") true) s))
      as (_ & _ & _ & Hn & _).
    destruct (rc =? 0); simpl; [exact Hn|].
    destruct (rc =? 1), (rc =? 2), (rc =? 3), (rc =? 4), (rc =? 5);
      reflexivity.
  - unfold mqtt_on_disconnect. destruct (rc =? 0); reflexivity.
  - exfalso. now apply (Hev topic payload).
  - reflexivity.
  - unfold vlx_cb. destruct (negb _); reflexivity.
Qed.

(** X4.  Only an inbound message changes the command table: the connect,
    disconnect, signal and device-update callbacks leave [nodes] as it
    is, so a pending command survives a reconnect. *)
Theorem table_changed_by_messages_only ev (st : St) :
  (forall topic payload, ev <> OnMessage topic payload) ->
  nodes (deliver st ev) = nodes st /\
  (forall rc, nodes (deliver (deliver st (OnDisconnect rc)) (OnConnect 0))
              = nodes st).
Proof.
  intros Hev. split; [now apply deliver_nodes|].
  intros rc. rewrite !deliver_nodes; [reflexivity| |]; intros t p; discriminate.
Qed.

Lemma deliver_running (s : St) ev :
  RUNNING (deliver s ev) = RUNNING s && negb (stops ev).
Proof.
  destruct ev as [rc|rc|topic payload|signum|node]; unfold deliver; simpl.
  - unfold mqtt_on_connect.
    destruct (subscribe_devices_run (pyvlx_nodes s)
                (emit (Publish STATUSTOPIC (PStr "CONNECTED") true) s))
      as (_ & Hr & _).
    destruct (Z.eqb_spec rc 0) as [->|H0]; simpl.
    + rewrite Hr. simpl. now rewrite andb_true_r.
    + destruct (Z.eqb_spec rc 3) as [->|H3]; simpl.
      * now rewrite andb_true_r.
      * rewrite andb_false_r.
        destruct (rc =? 1), (rc =? 2), (rc =? 4), (rc =? 5); reflexivity.
  - rewrite andb_true_r. unfold mqtt_on_disconnect.
    destruct (rc =? 0); reflexivity.
  - rewrite andb_true_r. unfold mqtt_on_message.
    destruct (stage_loop_frame topic payload (pyvlx_nodes s) s)
      as (_ & Hr & _).
    destruct (stage_loop _ _ _ s); exact Hr.
  - now rewrite andb_false_r.
  - rewrite andb_true_r. unfold vlx_cb. destruct (negb _); reflexivity.
Qed.

Lemma deliver_all_running evs : forall s : St,
  RUNNING (deliver_all evs s) =
  RUNNING s && forallb (fun ev => negb (stops ev)) evs.
Proof.
  unfold deliver_all.
  induction evs as [|ev evs IH]; intros s; simpl;
    [now rewrite andb_true_r|].
  rewrite IH, deliver_running. now rewrite andb_assoc.
Qed.

Lemma issue_loop_running snap (s : St) :
  RUNNING (state_of (issue_loop snap s)) = RUNNING s.
Proof.
  destruct (issue_loop snap s) as [s'|e s'] eqn:Hrun; simpl.
  - now apply issue_loop_ok in Hrun.
  - apply issue_loop_raised in Hrun.
    now destruct Hrun as (_ & done & kv & left & _ & _ & _ & _ & Hr & _).
Qed.

(** X5.  Whether the loop goes on after a tick is decided by the
    callbacks of that tick alone: [RUNNING] after the tick is [RUNNING]
    before it, unless a signal or a fatal refusal was among them.  In
    particular nothing ever sets [RUNNING] back to true. *)
Theorem running_after_tick evs (st : St) :
  RUNNING (state_of (tick evs st)) =
    RUNNING st && forallb (fun ev => negb (stops ev)) evs /\
  (RUNNING st = false -> RUNNING (deliver_all evs st) = false).
Proof.
  split.
  - unfold tick, issue_pending. rewrite issue_loop_running.
    now rewrite deliver_all_running.
  - intros Hr. now rewrite deliver_all_running, Hr.
Qed.

(** X6.  A termination signal during a tick: the commands pending in
    that tick are still issued, then the loop is left and the shutdown
    sequence runs, ending with the retained [DISCONNECTED].  (The hub
    calls on the way are assumed to return.) *)
Theorem signal_shuts_down signum evs1 evs2 rest (st st1 : St) h :
  RUNNING st = true ->
  tick (evs1 ++ Signal signum :: evs2) st = Ok st1 ->
  disconnect (pyvlx st1) = Some h ->
  exists st2,
    main_loop ((evs1 ++ Signal signum :: evs2)%list :: rest) st
      = Exited st2 /\
    since st1 st2 =
      [Publish STATUSTOPIC (PStr "DISCONNECTING KLF") true;
       HubDisconnect;
       Publish STATUSTOPIC (PStr "DISCONNECTED KLF") true;
       Publish STATUSTOPIC (PStr "DISCONNECTED") true;
       Disconnect;
       LoopStop] /\
    last (publishes (trace st2)) (STATUSTOPIC, PStr "", false) =
      (STATUSTOPIC, PStr "DISCONNECTED", true).
Proof.
  intros Hr Hrun Hd.
  assert (Hstop : RUNNING st1 = false).
  { change st1 with (state_of (Ok st1)). rewrite <- Hrun.
    unfold tick, issue_pending.
    rewrite issue_loop_running, deliver_all_running, forallb_app. simpl.
    now rewrite andb_false_r, andb_false_r. }
  destruct (shutdown_run st1 h Hd) as (st2 & Hs & Htr & Hlast).
  exists st2. split; [|split].
  - simpl. rewrite Hr, Hrun. now rewrite main_loop_stopped.
  - now apply since_app.
  - exact Hlast.
Qed.

(* ------------------------------------------------------------------ *)
(** ** What the callbacks ask of the collaborators *)

Lemma hub_effects_app (a b : list Effect) :
  hub_effects (a ++ b) = (hub_effects a ++ hub_effects b)%list.
Proof. unfold hub_effects. apply filter_app. Qed.

Lemma hub_effects_subscribe (l : list Node) :
  hub_effects (map (fun node => Subscribe (set_topic (name node))) l) = [].
Proof. induction l as [|x l IH]; simpl; [reflexivity|exact IH]. Qed.

Lemma deliver_trace (s : St) ev :
  exists out,
    trace (deliver s ev) = (trace s ++ out)%list /\ hub_effects out = [].
Proof.
  destruct ev as [rc|rc|topic payload|signum|node]; unfold deliver; simpl.
  - unfold mqtt_on_connect.
    destruct (subscribe_devices_run (pyvlx_nodes s)
                (emit (Publish STATUSTOPIC (PStr "CONNECTED") true) s))
      as (Htr & _).
    destruct (rc =? 0); simpl.
    + eexists. rewrite Htr. simpl. rewrite <- app_assoc.
      split; [reflexivity|]. simpl. apply hub_effects_subscribe.
    + destruct (rc =? 1), (rc =? 2), (rc =? 3), (rc =? 4), (rc =? 5);
        simpl;
        first [ exists []; now rewrite app_nil_r
              | exists [Sleep 10]; now split ].
  - unfold mqtt_on_disconnect. destruct (rc =? 0); simpl.
    + exists []. now rewrite app_nil_r.
    + exists [Sleep 5]. now split.
  - unfold mqtt_on_message.
    destruct (stage_loop_frame topic payload (pyvlx_nodes s) s)
      as (Ht & _).
    exists []. rewrite app_nil_r. split; [|reflexivity].
    destruct (stage_loop _ _ _ s); exact Ht.
  - exists []. now rewrite app_nil_r.
  - unfold vlx_cb. destruct (negb _); simpl.
    + exists []. now rewrite app_nil_r.
    + eexists. split; reflexivity.
Qed.

Lemma deliver_all_trace evs : forall s : St,
  exists out,
    trace (deliver_all evs s) = (trace s ++ out)%list /\ hub_effects out = [].
Proof.
  unfold deliver_all.
  induction evs as [|ev evs IH]; intros s; simpl.
  - exists []. now rewrite app_nil_r.
  - destruct (deliver_trace s ev) as (o1 & H1 & N1).
    destruct (IH (deliver s ev)) as (o2 & H2 & N2).
    exists (o1 ++ o2)%list. rewrite H2, H1, <- app_assoc.
    split; [reflexivity|]. now rewrite hub_effects_app, N1, N2.
Qed.

(** X7.  No callback reaches the hub: whatever is delivered, the hub
    session is as before and the trace gains no hub write, no hub
    disconnect, no roster load and no registration.  Only the main
    coroutine talks to the hub. *)
Theorem callbacks_leave_hub_alone evs (st : St) :
  pyvlx (deliver_all evs st) = pyvlx st /\
  pyvlx_nodes (deliver_all evs st) = pyvlx_nodes st /\
  hub_effects (since st (deliver_all evs st)) = [].
Proof.
  destruct (deliver_all_frame evs st) as (_ & Hh & Hp & _).
  destruct (deliver_all_trace evs st) as (out & Htr & Hnone).
  repeat split; try assumption.
  now rewrite (since_app _ _ _ Htr).
Qed.

Lemma updates_published_trace ns : forall s : St,
  MQTT_CONN s = true ->
  trace (deliver_all (map DeviceUpdated ns) s) =
    (trace s ++
     map (fun n => Publish (state_topic (name n))
                           (PInt (position_percent n)) false) ns)%list /\
  MQTT_CONN (deliver_all (map DeviceUpdated ns) s) = true.
Proof.
  unfold deliver_all.
  induction ns as [|n ns IH]; intros s Hc; simpl.
  - now rewrite app_nil_r.
  - assert (Hstep : deliver s (DeviceUpdated n) =
                    emit (Publish (state_topic (name n))
                                  (PInt (position_percent n)) false) s)
      by (unfold deliver, handle, vlx_cb; now rewrite Hc).
    rewrite Hstep.
    destruct (IH (emit (Publish (state_topic (name n))
                                (PInt (position_percent n)) false) s) Hc)
      as (Htr & Hc').
    rewrite Htr, Hc'. simpl. now rewrite <- app_assoc.
Qed.

Lemma updates_skipped ns : forall s : St,
  MQTT_CONN s = false -> deliver_all (map DeviceUpdated ns) s = s.
Proof.
  unfold deliver_all.
  induction ns as [|n ns IH]; intros s Hc; simpl; [reflexivity|].
  assert (Hstep : deliver s (DeviceUpdated n) = s)
    by (unfold deliver, handle, vlx_cb; now rewrite Hc).
  rewrite Hstep. now apply IH.
Qed.

(** X8.  While [MQTT_CONN] is true, every device update is published:
    one publish per update, in the order of arrival, on the topic of the
    device, with its position, never retained.  While it is false, none
    is published and the state is untouched. *)
Theorem updates_published_in_order ns (st : St) :
  MQTT_CONN st = true ->
  since st (deliver_all (map DeviceUpdated ns) st) =
    map (fun n => Publish (state_topic (name n))
                          (PInt (position_percent n)) false) ns /\
  deliver_all (map DeviceUpdated ns) (set_MQTT_CONN false st) =
    set_MQTT_CONN false st.
Proof.
  intros Hc. split.
  - apply since_app. now apply updates_published_trace.
  - now apply updates_skipped.
Qed.

(* ------------------------------------------------------------------ *)
(** ** How [main] ends *)



Lemma issue_loop_accepting :
  (forall d v h, set_position d v h <> None) ->
  forall snap (s : St), exists s', issue_loop snap s = Ok s'.
Proof.
  intros Hacc. induction snap as [|[k v] snap IH]; intros s; simpl.
  - now exists s.
  - destruct (v >=? 0); [|apply IH].
    destruct (set_position k v _) as [h|] eqn:Hw; [apply IH|].
    now apply Hacc in Hw.
Qed.

(** X10.  The loop never ends on its own.  From a running state, with no
    signal and no fatal refusal among the callbacks, a run does not
    return: it is still looping when the schedule is used up, unless a
    hub write raised; and if the hub accepts every write, it is still
    looping. *)
Theorem loop_keeps_running sched : forall st : St,
  RUNNING st = true ->
  forallb (forallb (fun ev => negb (stops ev))) sched = true ->
  match main_loop sched st with
  | Exited _ => False
  | Crashed e _ => e = HubError
  | Pending st' => RUNNING st' = true
  end /\
  ((forall d v h, set_position d v h <> None) ->
   exists st', main_loop sched st = Pending st' /\ RUNNING st' = true).
Proof.
  induction sched as [|evs rest IH]; intros st Hr Hquiet; simpl.
  - rewrite Hr. split; [exact Hr|]. intros _. now exists st.
  - simpl in Hquiet. apply andb_true_iff in Hquiet.
    destruct Hquiet as (Hevs & Hrest). rewrite Hr.
    assert (Hafter : RUNNING (state_of (tick evs st)) = true).
    { unfold tick, issue_pending.
      rewrite issue_loop_running, deliver_all_running.
      change (RUNNING (emit (Sleep 1) st)) with (RUNNING st).
      now rewrite Hr, Hevs. }
    destruct (tick evs st) as [st'|e st'] eqn:Hrun; simpl in Hafter.
    + destruct (IH st' Hafter Hrest) as (Hshape & Hacc).
      split; [exact Hshape|exact Hacc].
    + split.
      * unfold tick, issue_pending in Hrun.
        now apply issue_loop_raised in Hrun.
      * intros Hacc. exfalso. unfold tick, issue_pending in Hrun.
        destruct (issue_loop_accepting Hacc
                    (Py.items (nodes (deliver_all evs (emit (Sleep 1) st))))
                    (deliver_all evs (emit (Sleep 1) st))) as (s' & Hok).
        rewrite Hok in Hrun. discriminate.
Qed.

(* ------------------------------------------------------------------ *)
(** ** The connect loop of [main] *)

Lemma connect_retry_failing results : forall st : St,
  Forall (fun r => r <> 0) results ->
  fst (connect_retry results st) = false /\
  trace (snd (connect_retry results st)) =
    (trace st ++
     List.concat (repeat [Connect; Sleep 10] (List.length results)))%list.
Proof.
  induction results as [|r results IH]; intros st Hall; simpl.
  - now rewrite app_nil_r.
  - inversion Hall as [|? ? Hr Hrest]; subst.
    destruct (Z.eqb_spec r 0); [contradiction|]. simpl.
    destruct (IH (emit (Sleep 10) (emit Connect st)) Hrest) as (Hf & Htr).
    rewrite Hf, Htr. simpl. now rewrite <- !app_assoc.
Qed.

(** X11.  As long as [MQTTC.connect] returns a non-zero value, [main]
    does nothing but call it again after a sleep of 10 seconds: nothing
    is published, the roster is not loaded, the loop is not started. *)
Theorem nothing_before_broker results roster startup sched (st : St) :
  Forall (fun r => r <> 0) results ->
  exists st',
    main results roster startup sched st = Pending st' /\
    since st st' =
      List.concat (repeat [Connect; Sleep 10] (List.length results)).
Proof.
  intros Hall. unfold main.
  destruct (connect_retry_failing results st Hall) as (Hf & Htr).
  destruct (connect_retry results st) as [ok st']. simpl in Hf, Htr.
  subst ok. exists st'. split; [reflexivity|now apply since_app].
Qed.

(** X12.  The connect loop stops at the first call that returns 0,
    whatever non-zero values the calls before it returned: one call per
    value, a sleep of 10 seconds after each failed one, and the values
    after the first 0 are never asked for. *)
Theorem connect_stops_at_first_success failed later (st : St) :
  Forall (fun r => r <> 0) failed ->
  fst (connect_retry (failed ++ 0 :: later) st) = true /\
  since st (snd (connect_retry (failed ++ 0 :: later) st)) =
    (List.concat (repeat [Connect; Sleep 10] (List.length failed))
     ++ [Connect])%list.
Proof.
  intros Hall.
  assert (Hgen : forall st : St,
             fst (connect_retry (failed ++ 0 :: later) st) = true /\
             trace (snd (connect_retry (failed ++ 0 :: later) st)) =
               (trace st ++
                List.concat (repeat [Connect; Sleep 10] (List.length failed))
                ++ [Connect])%list).
  { induction failed as [|r failed IH]; intros s; simpl; [now split|].
    inversion Hall as [|? ? Hr Hrest]; subst.
    destruct (Z.eqb_spec r 0); [contradiction|]. simpl.
    destruct (IH Hrest (emit (Sleep 10) (emit Connect s))) as (Hf & Htr).
    rewrite Hf, Htr. simpl. now rewrite <- !app_assoc. }
  destruct (Hgen st) as (Hf & Htr). split; [exact Hf|now apply since_app].
Qed.

(* ------------------------------------------------------------------ *)
(** ** What the table holds *)

Lemma keys_setitem_sub k v k' (d : Py.dict) :
  In k' (Py.keys (Py.setitem k v d)) -> k' = k \/ In k' (Py.keys d).
Proof.
  induction d as [|[k0 v0] d IH]; simpl.
  - intros [<-|[]]. now left.
  - destruct (String.eqb_spec k k0) as [->|Hne]; simpl.
    + intros [<-|Hin]; [now left|right; now right].
    + intros [<-|Hin]; [right; now left|].
      destruct (IH Hin) as [->|Hd]; [now left|right; now right].
Qed.

Lemma stage_loop_keys topic payload ns : forall (s : St) k,
  In k (Py.keys (nodes (state_of (stage_loop ns topic payload s)))) ->
  In k (Py.keys (nodes s)) \/ In k (map name ns).
Proof.
  induction ns as [|node ns IH]; intros s k; simpl; [now left|].
  destruct (negb _).
  - intros Hin. destruct (IH s k Hin); [now left|right; now right].
  - destruct (Py.int payload) as [v|]; simpl; [|now left].
    intros Hin. destruct (IH _ k Hin) as [Hk|Hk]; [|right; now right].
    simpl in Hk. apply keys_setitem_sub in Hk.
    destruct Hk as [->|Hk]; [right; now left|now left].
Qed.

Lemma taken_keys done : forall d : Py.dict,
  (forall kv, In kv done -> In (fst kv) (Py.keys d)) ->
  Py.keys (taken done d) = Py.keys d.
Proof.
  induction done as [|[k v] done IH]; intros d Hin; simpl; [reflexivity|].
  assert (Hk : In k (Py.keys d)) by (apply (Hin (k, v)); now left).
  rewrite IH.
  - now apply keys_setitem_known.
  - intros kv Hkv. rewrite keys_setitem_known by exact Hk.
    apply Hin. now right.
Qed.

Lemma due_in_keys (d : Py.dict) kv :
  In kv (filter due d) -> In (fst kv) (Py.keys d).
Proof.
  intros Hin. apply filter_In in Hin. destruct Hin as (Hin & _).
  unfold Py.keys. now apply in_map.
Qed.

(** A pass of the loop neither adds nor removes a key. *)
Lemma issue_pending_keys (s : St) :
  Py.keys (nodes (state_of (issue_pending s))) = Py.keys (nodes s).
Proof.
  unfold issue_pending, Py.items.
  destruct (issue_loop (nodes s) s) as [s'|e s'] eqn:Hrun; simpl.
  - apply issue_loop_ok in Hrun. destruct Hrun as (_ & Hn & _).
    rewrite Hn. apply taken_keys. intros kv. apply due_in_keys.
  - apply issue_loop_raised in Hrun.
    destruct Hrun as (_ & done & kv & left & Hf & _ & Hn & _).
    rewrite Hn. apply taken_keys. intros x Hx. apply due_in_keys.
    rewrite Hf. apply in_app_or in Hx. apply in_or_app.
    destruct Hx as [Hx|[<-|[]]]; [now left|right; now left].
Qed.

Lemma deliver_keys (s : St) ev k :
  In k (Py.keys (nodes (deliver s ev))) ->
  In k (Py.keys (nodes s)) \/ In k (map name (pyvlx_nodes s)).
Proof.
  destruct ev as [rc|rc|topic payload|signum|node];
    try (rewrite deliver_nodes by (intros t p; discriminate); now left).
  unfold deliver, handle, mqtt_on_message. intros Hin.
  apply (stage_loop_keys topic payload (pyvlx_nodes s) s k).
  now destruct (stage_loop _ _ _ s).
Qed.

Lemma deliver_all_keys evs : forall (s : St) k,
  In k (Py.keys (nodes (deliver_all evs s))) ->
  In k (Py.keys (nodes s)) \/ In k (map name (pyvlx_nodes s)).
Proof.
  unfold deliver_all.
  induction evs as [|ev evs IH]; intros s k; simpl; [now left|].
  intros Hin. destruct (IH _ k Hin) as [Hk|Hk].
  - now apply (deliver_keys s ev).
  - right. destruct (deliver_frame s ev) as (_ & _ & Hp & _).
    now rewrite Hp in Hk.
Qed.

(** X13.  The table only ever holds names of the roster: if that is so
    before a tick, it is so after it, whatever was delivered.  So
    [pyvlx.nodes[name]] in the loop is never asked for an unknown name.
    A pass of the loop itself neither adds nor removes a key. *)
Theorem table_keys_are_roster_names evs (st : St) :
  (forall k, In k (Py.keys (nodes st)) -> In k (map name (pyvlx_nodes st))) ->
  (forall k, In k (Py.keys (nodes (state_of (tick evs st)))) ->
             In k (map name (pyvlx_nodes st))) /\
  Py.keys (nodes (state_of (issue_pending st))) = Py.keys (nodes st).
Proof.
  intros Hinv. split; [|apply issue_pending_keys].
  intros k. unfold tick. rewrite issue_pending_keys. intros Hin.
  apply deliver_all_keys in Hin. simpl in Hin.
  destruct Hin as [Hk|Hk]; [now apply Hinv|].
  exact Hk.
Qed.

(* ------------------------------------------------------------------ *)
(** ** The start of [main] *)

Lemma register_callbacks_run ns : forall s : St,
  trace (register_callbacks ns s) =
    (trace s ++ map (fun node => RegisterCb (name node))
                    (filter is_opening ns))%list.
Proof.
  induction ns as [|node ns IH]; intros s; simpl.
  - now rewrite app_nil_r.
  - destruct (is_opening node); [|apply IH].
    rewrite IH. simpl. now rewrite <- app_assoc.
Qed.

(** X15.  The devices subscribed to on a successful connect are the
    devices [vlx_cb] is registered for: the opening devices of the
    roster, in roster order.  A node of another kind gets neither. *)
Theorem subscribed_devices_are_watched (st : St) :
  subscriptions (since st (mqtt_on_connect 0 st)) =
    map set_topic
        (registrations
           (since st (register_callbacks (pyvlx_nodes st) st))) /\
  registrations (since st (register_callbacks (pyvlx_nodes st) st)) =
    map name (filter is_opening (pyvlx_nodes st)).
Proof.
  assert (Hreg : forall l : list Node,
             registrations (map (fun node => RegisterCb (name node)) l) =
             map name l)
    by (induction l as [|x l IHl]; simpl; [|rewrite IHl]; reflexivity).
  assert (Hsub : forall l : list Node,
             subscriptions
               (map (fun node => Subscribe (set_topic (name node))) l) =
             map set_topic (map name l))
    by (induction l as [|x l IHl]; simpl; [|rewrite IHl]; reflexivity).
  rewrite (since_app _ _ _ (register_callbacks_run (pyvlx_nodes st) st)).
  rewrite Hreg. split; [|reflexivity].
  unfold mqtt_on_connect. simpl.
  destruct (subscribe_devices_run (pyvlx_nodes st)
              (emit (Publish STATUSTOPIC (PStr "CONNECTED") true) st))
    as (Htr & _).
  assert (Hext : trace (set_MQTT_CONN true
                   (subscribe_devices (pyvlx_nodes st)
                      (emit (Publish STATUSTOPIC (PStr "CONNECTED") true) st)))
                 = (trace st ++
                    Publish STATUSTOPIC (PStr "CONNECTED") true ::
                    map (fun node => Subscribe (set_topic (name node)))
                        (filter is_opening (pyvlx_nodes st)))%list).
  { simpl. rewrite Htr. simpl. now rewrite <- app_assoc. }
  rewrite (since_app _ _ _ Hext). simpl. apply Hsub.
Qed.

Lemma issue_loop_extends snap (s : St) :
  exists out, trace (state_of (issue_loop snap s)) = (trace s ++ out)%list.
Proof.
  destruct (issue_loop snap s) as [s'|e s'] eqn:Hrun; simpl.
  - apply issue_loop_ok in Hrun. destruct Hrun as (Htr & _). eauto.
  - apply issue_loop_raised in Hrun.
    destruct Hrun as (_ & done & kv & left & _ & Htr & _). eauto.
Qed.

Lemma main_loop_extends sched : forall st : St,
  exists out, trace (final (main_loop sched st)) = (trace st ++ out)%list.
Proof.
  assert (Hdown : forall st : St,
             exists out, trace (final (shutdown st)) = (trace st ++ out)%list).
  { intros st. unfold shutdown. simpl.
    destruct (disconnect (pyvlx st)); simpl;
      repeat rewrite <- app_assoc; eauto. }
  induction sched as [|evs rest IH]; intros st; simpl.
  - destruct (RUNNING st); [|apply Hdown]. exists []. simpl.
    now rewrite app_nil_r.
  - destruct (RUNNING st); [|apply Hdown].
    assert (Htick : exists out,
               trace (state_of (tick evs st)) = (trace st ++ out)%list).
    { unfold tick, issue_pending.
      destruct (deliver_all_trace evs (emit (Sleep 1) st)) as (o1 & H1 & _).
      destruct (issue_loop_extends
                  (Py.items (nodes (deliver_all evs (emit (Sleep 1) st))))
                  (deliver_all evs (emit (Sleep 1) st))) as (o2 & H2).
      rewrite H2, H1. simpl. repeat rewrite <- app_assoc. eauto. }
    destruct Htick as (o & Ho).
    destruct (tick evs st) as [st'|e st']; simpl in *.
    + destruct (IH st') as (o' & Ho'). rewrite Ho', Ho, <- app_assoc. eauto.
    + eauto.
Qed.

(** X16.  The order of the start-up.  Once [MQTTC.connect] has returned
    0, a run of [main] goes, in this order, through: the retained
    [STARTED], the loading of the roster, the start of the network loop,
    a pause of 2 seconds during which no callback reaches the hub, the
    retained [KLF200_available], and the registration of [vlx_cb] for the
    opening devices of the roster; whatever the run does next comes after
    these. *)
Theorem startup_order results roster startup sched (st st1 : St) :
  connect_retry results st = (true, st1) ->
  exists during rest,
    trace (final (main results roster startup sched st)) =
      (trace st1 ++
       [Publish STATUSTOPIC (PStr "STARTED") true;
        LoadNodes; LoopStart; Sleep 2] ++
       during ++
       Publish STATUSTOPIC (PStr "KLF200_available") true ::
       map (fun node => RegisterCb (name node)) (filter is_opening roster) ++
       rest)%list /\
    hub_effects during = [].
Proof.
  intros Hc. unfold main. rewrite Hc.
  set (s4 := emit (Sleep 2) _).
  destruct (deliver_all_trace startup s4) as (during & Hd & Hnone).
  destruct (deliver_all_frame startup s4) as (_ & _ & Hp & _).
  set (s5 := deliver_all startup s4) in *.
  set (s6 := emit (Publish STATUSTOPIC (PStr "KLF200_available") true) s5).
  assert (Hroster : pyvlx_nodes s6 = roster) by (simpl; now rewrite Hp).
  rewrite Hroster.
  destruct (main_loop_extends sched (register_callbacks roster s6))
    as (rest & Hrest).
  exists during, rest. split; [|exact Hnone].
  rewrite Hrest, register_callbacks_run. simpl. rewrite Hd. simpl.
  repeat rewrite <- app_assoc. reflexivity.
Qed.

(* ------------------------------------------------------------------ *)
(** ** Callbacks while the loop of a tick is under way *)

Lemma deliver_all_nil (s : St) : deliver_all [] s = s.
Proof. reflexivity. Qed.

Lemma issue_loop_during_cons k v snap during (st : St) :
  issue_loop_during ((k, v) :: snap) during st =
  let st0 := deliver_all (fst (hd ([], []) during)) st in
  if v >=? 0 then
    let st3 := deliver_all (snd (hd ([], []) during))
                 (emit (SetPosition k v) (stage k (-1) st0)) in
    match set_position k v (pyvlx st3) with
    | None => Raised HubError st3
    | Some h => issue_loop_during snap (tl during) (set_pyvlx h st3)
    end
  else issue_loop_during snap (tl during) st0.
Proof. reflexivity. Qed.

(** With nothing delivered while the loop is under way, the loops are
    those of [issue_loop], [tick] and [main_loop]. *)
Lemma issue_loop_during_quiet snap : forall st : St,
  issue_loop_during snap [] st = issue_loop snap st.
Proof.
  induction snap as [|[k v] snap IH]; intros st; [reflexivity|].
  rewrite issue_loop_during_cons. cbv zeta. simpl hd. simpl tl. simpl fst.
  simpl snd. rewrite !deliver_all_nil. simpl.
  destruct (v >=? 0); [|apply IH].
  destruct (set_position k v _); [apply IH|reflexivity].
Qed.

Lemma tick_during_quiet evs (st : St) : tick_during evs [] st = tick evs st.
Proof. unfold tick_during, tick, issue_pending. apply issue_loop_during_quiet. Qed.

Lemma main_loop_during_quiet sched : forall st : St,
  main_loop_during (map (fun evs => (evs, [])) sched) st = main_loop sched st.
Proof.
  induction sched as [|evs sched IH]; intros st; simpl; [reflexivity|].
  rewrite tick_during_quiet.
  destruct (RUNNING st); [|reflexivity].
  destruct (tick evs st); [apply IH|reflexivity].
Qed.


Lemma deliver_all_nodes evs : forall s : St,
  forallb (fun ev => negb (is_message ev)) evs = true ->
  nodes (deliver_all evs s) = nodes s.
Proof.
  unfold deliver_all.
  induction evs as [|ev evs IH]; intros s Hq; simpl; [reflexivity|].
  simpl in Hq. apply andb_true_iff in Hq. destruct Hq as (Hev & Hevs).
  rewrite IH by exact Hevs. apply deliver_nodes.
  intros topic payload ->. discriminate.
Qed.

Lemma no_commands_head (during : arrivals) :
  no_commands during = true ->
  forallb (fun ev => negb (is_message ev)) (fst (hd ([], []) during)) = true /\
  forallb (fun ev => negb (is_message ev)) (snd (hd ([], []) during)) = true /\
  no_commands (tl during) = true.
Proof.
  destruct during as [|[b w] during]; simpl; [auto|].
  intros H. apply andb_true_iff in H. destruct H as (H1 & H2).
  apply andb_true_iff in H1. destruct H1 as (Hb & Hw). auto.
Qed.

(** What a pass does, whatever is delivered while it is under way: the
    hub receives a prefix of the due entries of the snapshot, in order
    and with the values of the snapshot; all of them when the pass
    completes. *)
Lemma issue_loop_during_run snap : forall (during : arrivals) (st : St),
  exists out done left,
    trace (state_of (issue_loop_during snap during st)) =
      (trace st ++ out)%list /\
    hub_effects out = map command done /\
    filter due snap = (done ++ left)%list /\
    (forall st', issue_loop_during snap during st = Ok st' -> left = []) /\
    (forall e st',
        issue_loop_during snap during st = Raised e st' -> e = HubError) /\
    pyvlx_nodes (state_of (issue_loop_during snap during st)) =
      pyvlx_nodes st /\
    (Py.wf (nodes st) ->
     Py.wf (nodes (state_of (issue_loop_during snap during st)))) /\
    (no_commands during = true ->
     nodes (state_of (issue_loop_during snap during st)) =
       taken done (nodes st)).
Proof.
  induction snap as [|[k v] snap IH]; intros during st.
  - exists [], [], []. simpl. rewrite app_nil_r.
    repeat split; auto. intros e st' H. discriminate.
  - rewrite issue_loop_during_cons. cbv zeta.
    pose proof (no_commands_head during) as Hq.
    set (b := fst (hd ([], []) during)) in *.
    set (w := snd (hd ([], []) during)) in *.
    set (later := tl during) in *.
    destruct (deliver_all_trace b st) as (ob & Hb & Nb).
    destruct (deliver_all_frame b st) as (_ & _ & Hpb & Hwb).
    pose proof (deliver_all_nodes b st) as Hnb.
    set (s0 := deliver_all b st) in *.
    simpl filter. change (due (k, v)) with (v >=? 0).
    destruct (v >=? 0) eqn:Hv.
    + destruct (deliver_all_trace w (emit (SetPosition k v) (stage k (-1) s0)))
        as (ow & Hw & Nw).
      destruct (deliver_all_frame w (emit (SetPosition k v) (stage k (-1) s0)))
        as (_ & _ & Hpw & Hww).
      pose proof (deliver_all_nodes w
                    (emit (SetPosition k v) (stage k (-1) s0))) as Hnw.
      set (s3 := deliver_all w (emit (SetPosition k v) (stage k (-1) s0))) in *.
      simpl in Hw, Hpw, Hww, Hnw.
      destruct (set_position k v (pyvlx s3)) as [h|] eqn:Hhub.
      * destruct (IH later (set_pyvlx h s3))
          as (out & done & left & Htr & Hh & Hf & Hok & Hraise & Hp & Hwf & Hn).
        exists (ob ++ SetPosition k v :: ow ++ out)%list, ((k, v) :: done), left.
        simpl in Htr, Hp, Hwf, Hn. repeat split.
        -- rewrite Htr, Hw, Hb. repeat rewrite <- app_assoc. reflexivity.
        -- change (SetPosition k v :: ow ++ out)%list
             with ([SetPosition k v] ++ ow ++ out)%list.
           rewrite !hub_effects_app, Nb, Nw, Hh. reflexivity.
        -- rewrite Hf. reflexivity.
        -- exact Hok.
        -- exact Hraise.
        -- now rewrite Hp, Hpw, Hpb.
        -- intros Hd. apply Hwf, Hww. apply wf_setitem. now apply Hwb.
        -- intros Hquiet. destruct (Hq Hquiet) as (Qb & Qw & Ql).
           rewrite (Hn Ql), (Hnw Qw), (Hnb Qb). reflexivity.
      * exists (ob ++ SetPosition k v :: ow)%list, [(k, v)], (filter due snap).
        simpl. repeat split.
        -- rewrite Hw, Hb. repeat rewrite <- app_assoc. reflexivity.
        -- change (SetPosition k v :: ow)%list
             with ([SetPosition k v] ++ ow)%list.
           rewrite !hub_effects_app, Nb, Nw. reflexivity.
        -- intros st' H. discriminate.
        -- intros e st' H. now injection H as <- _.
        -- now rewrite Hpw, Hpb.
        -- intros Hd. apply Hww. apply wf_setitem. now apply Hwb.
        -- intros Hquiet. destruct (Hq Hquiet) as (Qb & Qw & _).
           rewrite (Hnw Qw), (Hnb Qb). reflexivity.
    + destruct (IH later s0)
        as (out & done & left & Htr & Hh & Hf & Hok & Hraise & Hp & Hwf & Hn).
      exists (ob ++ out)%list, done, left. repeat split.
      * rewrite Htr, Hb. now rewrite <- app_assoc.
      * now rewrite hub_effects_app, Nb, Hh.
      * exact Hf.
      * exact Hok.
      * exact Hraise.
      * now rewrite Hp, Hpb.
      * intros Hd. now apply Hwf, Hwb.
      * intros Hquiet. destruct (Hq Hquiet) as (Qb & _ & Ql).
        rewrite (Hn Ql), (Hnb Qb). reflexivity.
Qed.

Lemma issue_loop_during_accepting :
  (forall d v h, set_position d v h <> None) ->
  forall snap (during : arrivals) (s : St),
    exists s', issue_loop_during snap during s = Ok s'.
Proof.
  intros Hacc. induction snap as [|[k v] snap IH]; intros during s.
  - now exists s.
  - rewrite issue_loop_during_cons. cbv zeta.
    destruct (v >=? 0); [|apply IH].
    destruct (set_position k v _) as [h|] eqn:Hw; [apply IH|].
    now apply Hacc in Hw.
Qed.


(** X14.  A pass over a hub that accepts every write completes, whatever
    is delivered while it is under way.  The hub receives the entries of
    the snapshot with a value of 0 or more, each once, with the value of
    the snapshot and in the order of the table; and when no command
    arrives during the pass, exactly those entries are at -1 afterwards
    and the others are as they were. *)
Theorem pass_issues_table_in_order (during : arrivals) (st : St) :
  Py.wf (nodes st) ->
  (forall d v h, set_position d v h <> None) ->
  exists st',
    issue_loop_during (Py.items (nodes st)) during st = Ok st' /\
    hub_effects (since st st') = map command (filter due (nodes st)) /\
    (no_commands during = true -> nodes st' = map cleared (nodes st)).
Proof.
  intros Hwf Hacc. unfold Py.items.
  destruct (issue_loop_during_accepting Hacc (nodes st) during st)
    as (st' & Hrun).
  exists st'. split; [exact Hrun|].
  destruct (issue_loop_during_run (nodes st) during st)
    as (out & done & left & Htr & Hh & Hf & Hok & _ & _ & _ & Hn).
  rewrite Hrun in Htr, Hn. simpl in Htr, Hn.
  rewrite (Hok st' Hrun), app_nil_r in Hf. subst done.
  split.
  - now rewrite (since_app _ _ _ Htr).
  - intros Hquiet. rewrite (Hn Hquiet). now apply taken_all.
Qed.

End Bridge.

(* ------------------------------------------------------------------ *)
(** ** Runs on a bridge with root topic [home] and status topic [status] *)

(** The scenario of one known shutter: the command is held by the table,
    the next tick writes it to the hub and resets the entry. *)
Example scenario_single_shutter :
  mqtt_on_message "home/shutter1/set" "42" (watching [shutter1]) =
    Ok (mkState true false [("shutter1", 42)] [shutter1] 0%nat []) /\
  tick "home" "status" steady_hub [OnMessage "home/shutter1/set" "42"]
       (watching [shutter1]) =
    Ok (mkState true false [("shutter1", -1)] [shutter1] 1%nat
          [Sleep 1; SetPosition "shutter1" 42]).
Proof. split; reflexivity. Qed.

(** C3, where the code departs from it.  The handler tests whether
    [name + "/set"] occurs anywhere in the topic; a command for
    [kitchen_shutter1] is therefore staged for [shutter1] as well, and the
    next tick moves both. *)
Lemma command_staged_for_suffix_name :
  mqtt_on_message "home/kitchen_shutter1/set" "42"
      (watching [shutter1; kitchen_shutter1]) =
    Ok (mkState true false [("shutter1", 42); ("kitchen_shutter1", 42)]
          [shutter1; kitchen_shutter1] 0%nat []) /\
  tick "home" "status" steady_hub [OnMessage "home/kitchen_shutter1/set" "42"]
       (watching [shutter1; kitchen_shutter1]) =
    Ok (mkState true false [("shutter1", -1); ("kitchen_shutter1", -1)]
          [shutter1; kitchen_shutter1] 2%nat
          [Sleep 1; SetPosition "shutter1" 42;
           SetPosition "kitchen_shutter1" 42]).
Proof. split; reflexivity. Qed.

Lemma issued_once_then_cleared_witness :
  commands_for "shutter1"
    (since (stage "shutter1" 42 (watching [shutter1]))
       (state_of (issue_pending steady_hub
                    (stage "shutter1" 42 (watching [shutter1]))))) = [42] /\
  issue_pending steady_hub
    (state_of (issue_pending steady_hub
                 (stage "shutter1" 42 (watching [shutter1])))) =
  Ok (state_of (issue_pending steady_hub
                  (stage "shutter1" 42 (watching [shutter1])))).
Proof.
  assert (Hwf : Py.wf (nodes (stage "shutter1" 42 (watching [shutter1])))).
  { apply NoDup_cons; [intros []|apply NoDup_nil]. }
  assert (Hv : 0 <= 42) by lia.
  destruct (issued_once_then_cleared steady_hub "shutter1" 42
              (stage "shutter1" 42 (watching [shutter1]))
              Hwf eq_refl Hv) as [_ Hok].
  destruct (Hok _ eq_refl) as (Hfirst & Hsecond & _).
  split; [exact Hfirst|exact Hsecond].
Defined.

Lemma sentinel_skipped_bounds_issued_witness :
  commands_for "shutter1"
    (since (watching [shutter1])
       (state_of (issue_pending steady_hub
                    (stage "shutter1" 0 (watching [shutter1]))))) = [0] /\
  commands_for "shutter1"
    (since (watching [shutter1])
       (state_of (issue_pending steady_hub
                    (stage "shutter1" 100 (watching [shutter1]))))) = [100] /\
  commands_for "shutter1"
    (since (watching [shutter1])
       (state_of (issue_pending steady_hub
                    (stage "shutter1" (-1) (watching [shutter1]))))) = [].
Proof.
  destruct (sentinel_skipped_bounds_issued steady_hub "shutter1"
              (watching [shutter1]) (NoDup_nil _)) as (_ & Hskip & Hbound).
  split; [|split].
  - exact (proj1 (proj2 (Hbound 0 _ (or_introl eq_refl) eq_refl))).
  - exact (proj1 (proj2 (Hbound 100 _ (or_intror eq_refl) eq_refl))).
  - exact Hskip.
Defined.

Lemma negative_command_never_issued_witness :
  exists st1,
    mqtt_on_message "home/shutter1/set" "-5" (watching [shutter1]) = Ok st1 /\
    Py.get "shutter1" (nodes st1) = Some (-5) /\
    commands_for "shutter1"
      (since st1 (state_of (issue_pending steady_hub st1))) = [] /\
    (forall st2,
        issue_pending steady_hub st1 = Ok st2 ->
        Py.get "shutter1" (nodes st2) = Some (-5)).
Proof.
  refine (proj2 (negative_command_never_issued steady_hub shutter1
                   "home/shutter1/set" "-5" (-5) (watching [shutter1])
                   _ _ _ _ _)).
  - apply NoDup_nil.
  - left; reflexivity.
  - reflexivity.
  - reflexivity.
  - lia.
Defined.

(** C5 fails on the code.  The hub refuses the position 150; the
    exception leaves [main].  The command 42 that arrives during what
    would be the next tick is never issued, the termination signal is
    never seen and nothing of the shutdown sequence is published. *)
Lemma hub_failure_stops_the_bridge :
  main "home" "status" strict_hub hub_disconnect [0] [shutter1] [OnConnect 0]
       [[OnMessage "home/shutter1/set" "150"];
        [OnMessage "home/shutter1/set" "42"];
        [Signal SIGTERM]]
       (initial 0%nat) =
    Crashed HubError
      (mkState true true [("shutter1", -1)] [shutter1] 0%nat
         [Connect;
          Publish "status" (PStr "STARTED") true;
          LoadNodes;
          LoopStart;
          Sleep 2;
          Publish "status" (PStr "CONNECTED") true;
          Subscribe "home/shutter1/set";
          Publish "status" (PStr "KLF200_available") true;
          RegisterCb "shutter1";
          Sleep 1;
          SetPosition "shutter1" 150]).
Proof. reflexivity. Qed.

Lemma hub_failure_ends_main_witness :
  main_loop "home" "status" strict_hub hub_disconnect
    [[OnMessage "home/shutter1/set" "150"];
     [OnMessage "home/shutter1/set" "42"]]
    (watching [shutter1]) =
  Crashed HubError
    (state_of (tick "home" "status" strict_hub
                 [OnMessage "home/shutter1/set" "150"]
                 (watching [shutter1]))).
Proof.
  refine (proj1 (hub_failure_ends_main "home" "status" strict_hub
                   hub_disconnect [OnMessage "home/shutter1/set" "150"]
                   [[OnMessage "home/shutter1/set" "42"]]
                   (watching [shutter1]) HubError _ _ _)).
  - reflexivity.
  - reflexivity.
Defined.

(** C6 fails on the code.  The payload [abc] on the command topic of a
    known shutter makes the handler raise [ValueError]. *)
Lemma malformed_payload_makes_handler_raise :
  Py.int "abc" = None /\
  mqtt_on_message "home/shutter1/set" "abc" (watching [shutter1]) =
    Raised ValueError (watching [shutter1]).
Proof. split; reflexivity. Qed.

Lemma unparsable_payload_raises_witness :
  mqtt_on_message "home/shutter1/set" "abc" (watching [shutter1]) =
    Raised ValueError (watching [shutter1]) /\
  mqtt_on_message "home/status" "abc" (watching [shutter1]) =
    Ok (watching [shutter1]).
Proof.
  split.
  - exact (proj1 (unparsable_payload_raises "home" "status"
                    "home/shutter1/set" "abc" (watching [shutter1])
                    eq_refl)).
  - exact (proj1 (unparsable_payload_raises "home" "status"
                    "home/status" "abc" (watching [shutter1]) eq_refl)).
Defined.

Lemma fatal_refusal_shuts_down_witness :
  exists st2,
    main_loop "home" "status" steady_hub hub_disconnect
      [[OnConnect 4]; [OnMessage "home/shutter1/set" "42"]]
      (watching [shutter1]) = Exited st2 /\
    since (state_of (tick "home" "status" steady_hub [OnConnect 4]
                       (watching [shutter1]))) st2 =
      [Publish "status" (PStr "DISCONNECTING KLF") true;
       HubDisconnect;
       Publish "status" (PStr "DISCONNECTED KLF") true;
       Publish "status" (PStr "DISCONNECTED") true;
       Disconnect;
       LoopStop] /\
    last (publishes (trace st2)) ("status", PStr "", false) =
      ("status", PStr "DISCONNECTED", true).
Proof.
  refine (proj2 (fatal_refusal_shuts_down "home" "status" steady_hub
                   hub_disconnect 4 [] []
                   [[OnMessage "home/shutter1/set" "42"]]
                   (watching [shutter1]) _ 0%nat _ _ _ _ _)).
  - lia.
  - lia.
  - reflexivity.
  - reflexivity.
  - reflexivity.
Defined.

(** The scenario of three refusals: three sleeps of 10 seconds, then the
    retained [CONNECTED] and the subscription. *)
Example three_refusals_then_connected :
  deliver_all "home" "status"
    [OnConnect 3; OnConnect 3; OnConnect 3; OnConnect 0]
    (watching [shutter1]) =
  mkState true true [] [shutter1] 0%nat
    [Sleep 10; Sleep 10; Sleep 10;
     Publish "status" (PStr "CONNECTED") true;
     Subscribe "home/shutter1/set"].
Proof. reflexivity. Qed.

Example three_failed_connects_then_started :
  connect_retry [3; 3; 3; 0] (initial 0%nat) =
  (true,
   mkState true false [] [] 0%nat
     [Connect; Sleep 10; Connect; Sleep 10; Connect; Sleep 10; Connect]).
Proof. reflexivity. Qed.

Lemma publish_skipped_when_disconnected_witness :
  vlx_cb "home" (mkNode "shutter1" true 37) (watching [shutter1]) =
    Ok (watching [shutter1]).
Proof.
  exact (proj1 (publish_skipped_when_disconnected "home"
                  (mkNode "shutter1" true 37) (watching [shutter1])
                  eq_refl)).
Defined.

(** The same update while connected is published, not retained. *)
Example update_published_when_connected :
  vlx_cb "home" (mkNode "shutter1" true 37)
    (mkState true true [] [shutter1] 0%nat []) =
  Ok (mkState true true [] [shutter1] 0%nat
        [Publish "home/shutter1" (PInt 37) false]).
Proof. reflexivity. Qed.

(** [int] on a few payloads. *)
Example int_examples :
  Py.int "42" = Some 42 /\ Py.int " -7 " = Some (-7) /\
  Py.int "+5" = Some 5 /\ Py.int "1_000" = Some 1000 /\
  Py.int "0" = Some 0 /\ Py.int "100" = Some 100 /\
  Py.int "abc" = None /\ Py.int "" = None /\ Py.int "42.0" = None /\
  Py.int "1__0" = None /\ Py.int "- 5" = None.
Proof. repeat split; reflexivity. Qed.

(** Assignment keeps the place of a known key and appends a new one. *)
Example setitem_order :
  Py.setitem "a" 5 [("a", 1); ("b", 2)] = [("a", 5); ("b", 2)] /\
  Py.setitem "c" 3 [("a", 1); ("b", 2)] = [("a", 1); ("b", 2); ("c", 3)].
Proof. split; reflexivity. Qed.

(* ------------------------------------------------------------------ *)
(** ** Further runs *)

Lemma valid_payload_stages_witness :
  exists st',
    mqtt_on_message "home/shutter1/set" "42" (watching [shutter1]) = Ok st' /\
    Py.get "shutter1" (nodes st') = Some 42.
Proof.
  destruct (valid_payload_stages "home/shutter1/set" "42" 42
              (watching [shutter1]) eq_refl)
    as (st' & Hrun & _ & _ & _ & _ & _ & Hg).
  exists st'. split; [exact Hrun|exact (Hg "shutter1")].
Defined.

Lemma own_topic_staged_witness :
  exists st',
    mqtt_on_message "home/shutter1/set" "42" (watching [shutter1]) = Ok st' /\
    Py.get "shutter1" (nodes st') = Some 42.
Proof.
  exact (own_topic_staged "home" shutter1 "42" 42 (watching [shutter1])
           (or_introl eq_refl) eq_refl).
Defined.

Lemma unaddressed_topic_ignored_witness :
  mqtt_on_message "home/status" "CONNECTED" (watching [shutter1]) =
    Ok (watching [shutter1]).
Proof.
  exact (unaddressed_topic_ignored "home/status" "CONNECTED"
           (watching [shutter1]) eq_refl).
Defined.

Lemma table_changed_by_messages_only_witness :
  nodes (deliver "home" "status"
           (stage "shutter1" 42 (watching [shutter1])) (OnDisconnect 1)) =
    [("shutter1", 42)].
Proof.
  refine (proj1 (table_changed_by_messages_only "home" "status"
                   (OnDisconnect 1)
                   (stage "shutter1" 42 (watching [shutter1])) _)).
  intros topic payload. discriminate.
Defined.

Lemma running_after_tick_witness :
  RUNNING (deliver_all "home" "status"
             [OnConnect 0; OnMessage "home/shutter1/set" "42"]
             (cleanup SIGTERM (watching [shutter1]))) = false.
Proof.
  exact (proj2 (running_after_tick "home" "status" steady_hub
                  [OnConnect 0; OnMessage "home/shutter1/set" "42"]
                  (cleanup SIGTERM (watching [shutter1]))) eq_refl).
Defined.

Lemma signal_shuts_down_witness :
  exists st2,
    main_loop "home" "status" steady_hub hub_disconnect
      [[OnMessage "home/shutter1/set" "42"; Signal SIGTERM]]
      (watching [shutter1]) = Exited st2 /\
    since (state_of (tick "home" "status" steady_hub
                       [OnMessage "home/shutter1/set" "42"; Signal SIGTERM]
                       (watching [shutter1]))) st2 =
      [Publish "status" (PStr "DISCONNECTING KLF") true;
       HubDisconnect;
       Publish "status" (PStr "DISCONNECTED KLF") true;
       Publish "status" (PStr "DISCONNECTED") true;
       Disconnect;
       LoopStop] /\
    last (publishes (trace st2)) ("status", PStr "", false) =
      ("status", PStr "DISCONNECTED", true).
Proof.
  refine (signal_shuts_down "home" "status" steady_hub hub_disconnect
            SIGTERM [OnMessage "home/shutter1/set" "42"] [] []
            (watching [shutter1]) _ 1%nat _ _ _).
  - reflexivity.
  - reflexivity.
  - reflexivity.
Defined.

Lemma updates_published_in_order_witness :
  since (set_MQTT_CONN true (watching [shutter1]))
    (deliver_all "home" "status"
       [DeviceUpdated (mkNode "shutter1" true 37);
        DeviceUpdated (mkNode "shutter1" true 40)]
       (set_MQTT_CONN true (watching [shutter1]))) =
  [Publish "home/shutter1" (PInt 37) false;
   Publish "home/shutter1" (PInt 40) false].
Proof.
  exact (proj1 (updates_published_in_order "home" "status"
                  [mkNode "shutter1" true 37; mkNode "shutter1" true 40]
                  (set_MQTT_CONN true (watching [shutter1])) eq_refl)).
Defined.


Lemma loop_keeps_running_witness :
  exists st',
    main_loop "home" "status" steady_hub hub_disconnect
      [[OnMessage "home/shutter1/set" "42"]; [OnConnect 3; OnDisconnect 1]]
      (watching [shutter1]) = Pending st' /\
    RUNNING st' = true.
Proof.
  refine (proj2 (loop_keeps_running "home" "status" steady_hub
                   hub_disconnect
                   [[OnMessage "home/shutter1/set" "42"];
                    [OnConnect 3; OnDisconnect 1]]
                   (watching [shutter1]) eq_refl eq_refl) _).
  intros d v h. discriminate.
Defined.

Lemma nothing_before_broker_witness :
  exists st',
    main "home" "status" steady_hub hub_disconnect [3; 1] [shutter1]
         [OnConnect 0] [[Signal SIGTERM]] (initial 0%nat) = Pending st' /\
    since (initial 0%nat) st' = [Connect; Sleep 10; Connect; Sleep 10].
Proof.
  refine (nothing_before_broker "home" "status" steady_hub hub_disconnect
            [3; 1] [shutter1] [OnConnect 0] [[Signal SIGTERM]]
            (initial 0%nat) _).
  apply Forall_cons; [discriminate|].
  apply Forall_cons; [discriminate|]. apply Forall_nil.
Defined.

Lemma connect_stops_at_first_success_witness :
  since (initial 0%nat)
    (snd (connect_retry [7; 3; 0; 5; 0] (initial 0%nat))) =
  [Connect; Sleep 10; Connect; Sleep 10; Connect].
Proof.
  refine (proj2 (connect_stops_at_first_success [7; 3] [5; 0]
                   (initial 0%nat) _)).
  apply Forall_cons; [discriminate|].
  apply Forall_cons; [discriminate|]. apply Forall_nil.
Defined.

Lemma table_keys_are_roster_names_witness :
  Py.keys (nodes (state_of
                    (tick "home" "status" steady_hub
                       [OnMessage "home/shutter1/set" "42"]
                       (watching [shutter1; kitchen_shutter1])))) =
    ["shutter1"] /\
  In "shutter1" (map name [shutter1; kitchen_shutter1]).
Proof.
  split; [reflexivity|].
  refine (proj1 (table_keys_are_roster_names "home" "status" steady_hub
                   [OnMessage "home/shutter1/set" "42"]
                   (watching [shutter1; kitchen_shutter1]) _)
            "shutter1" _).
  - intros k [].
  - left; reflexivity.
Defined.

Lemma startup_order_witness :
  exists during rest,
    trace (final (main "home" "status" steady_hub hub_disconnect [0]
                    [shutter1] [OnConnect 0] [[Signal SIGTERM]]
                    (initial 0%nat))) =
      ([Connect] ++
       [Publish "status" (PStr "STARTED") true;
        LoadNodes; LoopStart; Sleep 2] ++
       during ++
       Publish "status" (PStr "KLF200_available") true ::
       map (fun node => RegisterCb (name node))
           (filter is_opening [shutter1]) ++
       rest)%list /\
    hub_effects during = [].
Proof.
  exact (startup_order "home" "status" steady_hub hub_disconnect [0]
           [shutter1] [OnConnect 0] [[Signal SIGTERM]] (initial 0%nat)
           _ eq_refl).
Defined.

Lemma fatal_refusal_at_startup_witness :
  exists st2,
    main "home" "status" steady_hub hub_disconnect [0] [shutter1]
         [OnConnect 5] [[OnMessage "home/shutter1/set" "42"]]
         (initial 0%nat) = Exited st2 /\
    main "home" "status" steady_hub hub_disconnect [0] [shutter1]
         [OnConnect 5] [] (initial 0%nat) = Exited st2 /\
    last (publishes (trace st2)) ("status", PStr "", false) =
      ("status", PStr "DISCONNECTED", true).
Proof.
  refine (fatal_refusal_at_startup "home" "status" steady_hub hub_disconnect
            5 [0] [shutter1] [] [] [[OnMessage "home/shutter1/set" "42"]]
            (initial 0%nat) _ 0%nat _ _ _ _).
  - lia.
  - lia.
  - reflexivity.
  - reflexivity.
Defined.

(* ------------------------------------------------------------------ *)
(** ** Runs with callbacks while the loop of a tick is under way *)



Lemma pass_issues_table_in_order_witness :
  exists st',
    issue_loop_during "home" "status" steady_hub
      [("west", 5); ("shutter1", 7)]
      [([], [DeviceUpdated (mkNode "west" true 5)]);
       ([OnDisconnect 1], [DeviceUpdated (mkNode "shutter1" true 7)])]
      (mkState true true [("west", 5); ("shutter1", 7)] [west; shutter1]
         0%nat []) = Ok st' /\
    hub_effects
      (since (mkState true true [("west", 5); ("shutter1", 7)]
                [west; shutter1] 0%nat []) st') =
      [SetPosition "west" 5; SetPosition "shutter1" 7] /\
    nodes st' = [("west", -1); ("shutter1", -1)].
Proof.
  destruct (pass_issues_table_in_order "home" "status" steady_hub
              [([], [DeviceUpdated (mkNode "west" true 5)]);
               ([OnDisconnect 1], [DeviceUpdated (mkNode "shutter1" true 7)])]
              (mkState true true [("west", 5); ("shutter1", 7)]
                 [west; shutter1] 0%nat []))
    as (st' & Hrun & Hs & Hn).
  - apply NoDup_cons; [intros [H|[]]; discriminate|].
    apply NoDup_cons; [intros []|apply NoDup_nil].
  - intros d v h. discriminate.
  - exists st'. split; [exact Hrun|]. split; [exact Hs|exact (Hn eq_refl)].
Defined.

(** A device update that the hub delivers while the write is awaited is
    published inside the pass, after the write was issued. *)
Example update_published_inside_pass :
  tick_during "home" "status" steady_hub [OnMessage "home/shutter1/set" "42"]
    [([], [DeviceUpdated (mkNode "shutter1" true 42)])]
    (mkState true true [] [shutter1] 0%nat []) =
  Ok (mkState true true [("shutter1", -1)] [shutter1] 1%nat
        [Sleep 1; SetPosition "shutter1" 42;
         Publish "home/shutter1" (PInt 42) false]).
Proof. reflexivity. Qed.

(** A command that arrives while the write for its own device is awaited
    comes after the reset: it stays in the table and the next pass issues
    it. *)
Example command_during_own_write_kept :
  tick_during "home" "status" steady_hub [OnMessage "home/shutter1/set" "7"]
    [([], [OnMessage "home/shutter1/set" "42"])]
    (watching [shutter1]) =
    Ok (mkState true false [("shutter1", 42)] [shutter1] 1%nat
          [Sleep 1; SetPosition "shutter1" 7]) /\
  tick "home" "status" steady_hub []
    (mkState true false [("shutter1", 42)] [shutter1] 1%nat
       [Sleep 1; SetPosition "shutter1" 7]) =
    Ok (mkState true false [("shutter1", -1)] [shutter1] 2%nat
          [Sleep 1; SetPosition "shutter1" 7; Sleep 1;
           SetPosition "shutter1" 42]).
Proof. split; reflexivity. Qed.
